(** * vesa: the document persistence and search facade

    A shallow embedding of [vesa/database/cozo_db.py] (class [CozoDatabase]),
    [vesa/database/vector_db.py] (class [VectorDatabase]),
    [vesa/models/document.py] and [vesa/services/document_service.py]
    (class [DocumentService]).
    The constructors of the three classes, the tag list of the web form
    ([vesa/routes/web_routes.py]) and the tag and preview helpers of
    [vesa/utils/markdown_utils.py] follow the service.

    The Python code talks to three collaborators that live outside the
    repository: the embedded store client ([pycozo.Client]), the sentence
    embedding model and the Python runtime ([json], [datetime], [uuid]).
    The runtime is an interface ([Runtime]) with its laws stated apart
    ([RuntimeLaws]); the store client is a small relational model with a
    fault tape, so that every client call can either answer or raise. *)

From Stdlib Require Import String Ascii List ZArith Floats Bool.
From stdpp Require Import gmap strings list fin_maps.

Open Scope string_scope.
Open Scope list_scope.

(** ** Python values and exceptions *)

(** The values that occur inside metadata and property dictionaries:
    [None], [str], [list], [dict] and [datetime]. *)
#[warnings="-register-all"]
Inductive pyval (datetime : Type) : Type :=
| PNone
| PStr (s : string)
| PList (l : list (pyval datetime))
| PDict (m : gmap string (pyval datetime))
| PDatetime (d : datetime).

Arguments PNone {datetime}.
Arguments PStr {datetime} s.
Arguments PList {datetime} l.
Arguments PDict {datetime} m.
Arguments PDatetime {datetime} d.

(** The exceptions the code raises, catches or lets through. [Failure msg]
    is the bare [Exception(msg)] that the facade raises itself. *)
Inductive exn : Type :=
| KeyError (key : string)
| TypeError
| AttributeError
| IndexError
| JSONDecodeError
| ValidationError
| StoreError
| ProviderError
| Failure (msg : string).

Inductive result (A : Type) : Type :=
| Ret (a : A)
| Raise (e : exn).

Arguments Ret {A} a.
Arguments Raise {A} e.

(** ** The Python runtime and the external providers *)

Class Runtime : Type := {
  (** [datetime.datetime] with [isoformat()] and [fromisoformat()]
      ([None] stands for [ValueError]). *)
  datetime : Type;
  isoformat : datetime -> string;
  fromisoformat : string -> option datetime;
  (** A [str] that holds a JSON document; [json.dumps] ([None] stands for
      [TypeError]) and [json.loads] ([None] for [JSONDecodeError]). *)
  json_text : Type;
  json_dumps : pyval datetime -> option json_text;
  json_loads : json_text -> option (pyval datetime);
  (** [SentenceTransformer.encode(text).tolist()]. *)
  encode : string -> list float;
  (** The store's nearest-neighbour index: query vector, [k] and the
      indexed (id, embedding) pairs to (distance, id) pairs. *)
  hnsw_search : list float -> Z -> list (string * list float) -> list (float * string);
  (** The successive answers of [datetime.now()], [datetime.utcnow()] and
      [uuid.uuid4()]. *)
  now_at : nat -> datetime;
  utcnow_at : nat -> datetime;
  uuid4_at : nat -> string
}.

(** What the runtime's documentation promises and the code relies on. *)
Class RuntimeLaws (R : Runtime) : Prop := {
  fromisoformat_isoformat : forall d : datetime, fromisoformat (isoformat d) = Some d;
  json_loads_dumps : forall (v : pyval datetime) (t : json_text),
      json_dumps v = Some t -> json_loads t = Some v
}.

(** ** Effects: state and exceptions

    A computation runs in a world [W]; it returns or raises, and leaves a
    world behind either way (an exception undoes nothing). *)

Definition St (W A : Type) : Type := W -> result A * W.

Definition ret {W A} (a : A) : St W A := fun w => (Ret a, w).

Definition raise {W A} (e : exn) : St W A := fun w => (Raise e, w).

Definition bind {W A B} (c : St W A) (k : A -> St W B) : St W B :=
  fun w => match c w with
           | (Ret a, w') => k a w'
           | (Raise e, w') => (Raise e, w')
           end.

(** [try: body except Exception as e: handler e] *)
Definition try_except {W A} (body : St W A) (handler : exn -> St W A) : St W A :=
  fun w => match body w with
           | (Ret a, w') => (Ret a, w')
           | (Raise e, w') => handler e w'
           end.

(** A pure step that may raise. *)
Definition lift {W A} (r : result A) : St W A := fun w => (r, w).

(** [for x in xs: ys.append(f x)] where [f] may raise. *)
Fixpoint for_each {W A B} (f : A -> St W B) (xs : list A) : St W (list B) :=
  match xs with
  | [] => ret []
  | x :: rest => bind (f x) (fun y => bind (for_each f rest) (fun ys => ret (y :: ys)))
  end.

Notation "x <- c ;; k" := (bind c (fun x => k))
  (at level 100, c at next level, right associativity).
Notation "c ;;; k" := (bind c (fun _ => k))
  (at level 100, right associativity).

(** * The embedded store client ([pycozo.Client]) *)

Module Client.
Section Client.
Context {R : Runtime}.

Abbreviation value := (pyval datetime).
Abbreviation dict := (gmap string (pyval datetime)).

(** ** The embedded store *)

(** A [Json] column holds what the client was handed: a [str] with JSON
    text, or an object. *)
Inductive cell : Type :=
| CText (t : json_text)
| CObj (m : dict).

(** [document {id, title, content, created_at, updated_at, metadata}] *)
Record doc_row : Type := {
  d_id : string;
  d_title : string;
  d_content : string;
  d_created_at : string;
  d_updated_at : string;
  d_metadata : cell
}.

(** [relationship {source_id, target_id, rel_type, properties, created_at, updated_at}] *)
Record rel_row : Type := {
  r_source_id : string;
  r_target_id : string;
  r_rel_type : string;
  r_properties : cell;
  r_created_at : string;
  r_updated_at : string
}.

(** [vector_document {id, content, embedding, metadata, created_at, updated_at}] *)
Record vec_row : Type := {
  v_id : string;
  v_content : string;
  v_embedding : list float;
  v_metadata : cell;
  v_created_at : string;
  v_updated_at : string
}.

(** The vector relation carries its similarity index, so an index never
    exists without its relation. *)
Record vec_relation : Type := {
  vec_rows : list vec_row;
  vec_indexed : bool
}.

(** A relation that was never created is [None]. *)
Record Store : Type := {
  document_rel : option (list doc_row);
  relationship_rel : option (list rel_row);
  vector_document_rel : option vec_relation
}.

(** The scripts the facade sends through [client.run], with the values it
    interpolates into them. *)
Inductive Query : Type :=
| QProbe                      (* ?[] <- [] *)
| QRelations                  (* ::relations *)
| QDataRelations              (* data :relations *)
| QCreateDocument             (* ::create document {...} *)
| QCreateRelationship         (* ::create relationship {...} *)
| QCreateVectorDocument       (* ::create vector_document {...} *)
| QHnswCreate                 (* ::hnsw create vector_document:embedding_idx {...} *)
| QPutDocument (doc_id escaped_title now : string) (metadata_json : json_text)
| QPutRelationship (escaped_source_id escaped_target_id escaped_rel_type : string)
    (properties_json : json_text) (now : string)
| QRelated (doc_id : string) (rel_type : option string)
| QDeleteDocument (doc_id : string)
| QDeleteRelationships (doc_id : string)
| QAllDocuments
| QAllRelationships
| QVectorSearch (query_vec : list float) (k : Z)
| QVectorById (doc_id : string)
| QDeleteVector (doc_id : string).

(** One call to a collaborator, as the log keeps it. *)
Inductive Call : Type :=
| CPutDocument (row : doc_row)
| CPutRelationship (row : rel_row)
| CPutVector (row : vec_row)
| CRun (q : Query)
| CEncode (text : string).

(** The calls that write a row through a hand-built [:put] script. *)
Definition is_manual_put (c : Call) : bool :=
  match c with
  | CRun (QPutDocument _ _ _ _) => true
  | CRun (QPutRelationship _ _ _ _ _) => true
  | _ => false
  end.

(** The world a call runs in: the store, the fault tape (one entry per
    call to a collaborator, [true] when that call raises; an exhausted tape
    raises nothing), the log of calls made so far, and how often the
    clocks and the id generator were read. *)
Record World : Type := {
  store : Store;
  faults : list bool;
  calls : list Call;
  ticks : nat
}.

Abbreviation M := (St World).

(** *** What the store does with a call that reaches it

    Each script is given its evident reading. [put] on [document] and
    [vector_document] replaces the row with the same id, [put] on
    [relationship] adds a row; a call on a relation that was never created
    raises, and so does creating what exists already. *)

Definition present {A} (o : option A) : bool :=
  match o with Some _ => true | None => false end.

(** The relation catalog: one row per relation, its name in the first column. *)
Definition catalog (s : Store) : list (list string) :=
  (if present (document_rel s) then [["document"]] else [])
  ++ (if present (relationship_rel s) then [["relationship"]] else [])
  ++ (if present (vector_document_rel s) then [["vector_document"]] else []).

Definition upsert_doc (row : doc_row) (rows : list doc_row) : list doc_row :=
  List.filter (fun r => negb (d_id r =? d_id row)) rows ++ [row].

Definition upsert_vec (row : vec_row) (rows : list vec_row) : list vec_row :=
  List.filter (fun r => negb (v_id r =? v_id row)) rows ++ [row].

Definition put_document (row : doc_row) (s : Store) : result unit * Store :=
  match document_rel s with
  | None => (Raise StoreError, s)
  | Some rows =>
      (Ret tt, {| document_rel := Some (upsert_doc row rows);
                  relationship_rel := relationship_rel s;
                  vector_document_rel := vector_document_rel s |})
  end.

Definition put_relationship (row : rel_row) (s : Store) : result unit * Store :=
  match relationship_rel s with
  | None => (Raise StoreError, s)
  | Some rows =>
      (Ret tt, {| document_rel := document_rel s;
                  relationship_rel := Some (rows ++ [row]);
                  vector_document_rel := vector_document_rel s |})
  end.

Definition put_vector (row : vec_row) (s : Store) : result unit * Store :=
  match vector_document_rel s with
  | None => (Raise StoreError, s)
  | Some v =>
      (Ret tt, {| document_rel := document_rel s;
                  relationship_rel := relationship_rel s;
                  vector_document_rel :=
                    Some {| vec_rows := upsert_vec row (vec_rows v);
                            vec_indexed := vec_indexed v |} |})
  end.

Definition create_document_relation (s : Store) : result unit * Store :=
  match document_rel s with
  | Some _ => (Raise StoreError, s)
  | None =>
      (Ret tt, {| document_rel := Some [];
                  relationship_rel := relationship_rel s;
                  vector_document_rel := vector_document_rel s |})
  end.

Definition create_relationship_relation (s : Store) : result unit * Store :=
  match relationship_rel s with
  | Some _ => (Raise StoreError, s)
  | None =>
      (Ret tt, {| document_rel := document_rel s;
                  relationship_rel := Some [];
                  vector_document_rel := vector_document_rel s |})
  end.

Definition create_vector_relation (s : Store) : result unit * Store :=
  match vector_document_rel s with
  | Some _ => (Raise StoreError, s)
  | None =>
      (Ret tt, {| document_rel := document_rel s;
                  relationship_rel := relationship_rel s;
                  vector_document_rel := Some {| vec_rows := []; vec_indexed := false |} |})
  end.

Definition create_hnsw_index (s : Store) : result unit * Store :=
  match vector_document_rel s with
  | None => (Raise StoreError, s)
  | Some v =>
      if vec_indexed v then (Raise StoreError, s)
      else (Ret tt, {| document_rel := document_rel s;
                       relationship_rel := relationship_rel s;
                       vector_document_rel :=
                         Some {| vec_rows := vec_rows v; vec_indexed := true |} |})
  end.

(** [?[id, title, metadata, rel_type, properties] <- relationship[...],
    document[...] :where source_id == doc_id and id == target_id], with
    [and rel_type == ...] when a type is given. *)
Definition related_rows (doc_id : string) (rel_type : option string)
    (rels : list rel_row) (docs : list doc_row)
  : list (string * string * cell * string * cell) :=
  flat_map
    (fun r =>
       if (r_source_id r =? doc_id)
          && match rel_type with
             | Some t => r_rel_type r =? t
             | None => true
             end
       then
         List.map (fun d => (d_id d, d_title d, d_metadata d, r_rel_type r, r_properties r))
           (List.filter (fun d => d_id d =? r_target_id r) docs)
       else [])
    rels.

Definition select_related (doc_id : string) (rel_type : option string) (s : Store)
  : result (list (string * string * cell * string * cell)) * Store :=
  match relationship_rel s, document_rel s with
  | Some rels, Some docs => (Ret (related_rows doc_id rel_type rels docs), s)
  | _, _ => (Raise StoreError, s)
  end.

Definition delete_document_row (doc_id : string) (s : Store) : result unit * Store :=
  match document_rel s with
  | None => (Raise StoreError, s)
  | Some rows =>
      (Ret tt, {| document_rel := Some (List.filter (fun r => negb (d_id r =? doc_id)) rows);
                  relationship_rel := relationship_rel s;
                  vector_document_rel := vector_document_rel s |})
  end.

Definition delete_relationship_rows (doc_id : string) (s : Store) : result unit * Store :=
  match relationship_rel s with
  | None => (Raise StoreError, s)
  | Some rows =>
      (Ret tt, {| document_rel := document_rel s;
                  relationship_rel :=
                    Some (List.filter
                            (fun r => negb ((r_source_id r =? doc_id) || (r_target_id r =? doc_id)))
                            rows);
                  vector_document_rel := vector_document_rel s |})
  end.

Definition select_all_documents (s : Store) : result (list (string * string * cell)) * Store :=
  match document_rel s with
  | None => (Raise StoreError, s)
  | Some rows => (Ret (List.map (fun d => (d_id d, d_title d, d_metadata d)) rows), s)
  end.

Definition select_all_relationships (s : Store)
  : result (list (string * string * string * cell)) * Store :=
  match relationship_rel s with
  | None => (Raise StoreError, s)
  | Some rows =>
      (Ret (List.map (fun r => (r_source_id r, r_target_id r, r_rel_type r, r_properties r)) rows), s)
  end.

(** [?[dist, id, content, metadata] := ~vector_document:embedding_idx{...}] *)
Definition vector_search (query_vec : list float) (k : Z) (s : Store)
  : result (list (float * string * string * cell)) * Store :=
  match vector_document_rel s with
  | None => (Raise StoreError, s)
  | Some v =>
      if vec_indexed v then
        (Ret (flat_map
                (fun hit : float * string =>
                   match List.find (fun r => v_id r =? snd hit) (vec_rows v) with
                   | Some r => [(fst hit, v_id r, v_content r, v_metadata r)]
                   | None => []
                   end)
                (hnsw_search query_vec k
                   (List.map (fun r => (v_id r, v_embedding r)) (vec_rows v)))), s)
      else (Raise StoreError, s)
  end.

Definition select_vector (doc_id : string) (s : Store)
  : result (list (string * string * cell)) * Store :=
  match vector_document_rel s with
  | None => (Raise StoreError, s)
  | Some v =>
      (Ret (List.map (fun r => (v_id r, v_content r, v_metadata r))
              (List.filter (fun r => v_id r =? doc_id) (vec_rows v))), s)
  end.

Definition delete_vector_row (doc_id : string) (s : Store) : result unit * Store :=
  match vector_document_rel s with
  | None => (Raise StoreError, s)
  | Some v =>
      (Ret tt, {| document_rel := document_rel s;
                  relationship_rel := relationship_rel s;
                  vector_document_rel :=
                    Some {| vec_rows := List.filter (fun r => negb (v_id r =? doc_id)) (vec_rows v);
                            vec_indexed := vec_indexed v |} |})
  end.

(** *** Calls

    A call to a collaborator is logged, takes one entry off the fault tape
    and raises [err] when that entry says so; otherwise the collaborator
    answers. *)
Definition logged (w : World) (s : Store) (c : Call) : World :=
  {| store := s; faults := tl (faults w); calls := calls w ++ [c]; ticks := ticks w |}.

Definition external {A} (err : exn) (c : Call) (answer : Store -> result A * Store) : M A :=
  fun w =>
    match faults w with
    | true :: _ => (Raise err, logged w (store w) c)
    | _ => (fst (answer (store w)), logged w (snd (answer (store w))) c)
    end.

(** [client.put(relation, data)] *)
Definition put_document_row (row : doc_row) : M unit :=
  external StoreError (CPutDocument row) (put_document row).

Definition put_relationship_row (row : rel_row) : M unit :=
  external StoreError (CPutRelationship row) (put_relationship row).

Definition put_vector_row (row : vec_row) : M unit :=
  external StoreError (CPutVector row) (put_vector row).

(** [client.run(script)], one function per shape of answer. *)
Definition run_probe : M unit :=
  external StoreError (CRun QProbe) (fun s => (Ret tt, s)).

Definition run_relations : M (list (list string)) :=
  external StoreError (CRun QRelations) (fun s => (Ret (catalog s), s)).

Definition run_data_relations : M (list (list string)) :=
  external StoreError (CRun QDataRelations) (fun s => (Ret (catalog s), s)).

Definition run_create_document : M unit :=
  external StoreError (CRun QCreateDocument) create_document_relation.

Definition run_create_relationship : M unit :=
  external StoreError (CRun QCreateRelationship) create_relationship_relation.

Definition run_create_vector_document : M unit :=
  external StoreError (CRun QCreateVectorDocument) create_vector_relation.

Definition run_hnsw_create : M unit :=
  external StoreError (CRun QHnswCreate) create_hnsw_index.

Definition run_put_document (doc_id escaped_title now : string) (metadata_json : json_text)
  : M unit :=
  external StoreError (CRun (QPutDocument doc_id escaped_title now metadata_json))
    (put_document {| d_id := doc_id; d_title := escaped_title; d_content := "";
                     d_created_at := now; d_updated_at := now;
                     d_metadata := CText metadata_json |}).

Definition run_put_relationship (escaped_source_id escaped_target_id escaped_rel_type : string)
    (properties_json : json_text) (now : string) : M unit :=
  external StoreError
    (CRun (QPutRelationship escaped_source_id escaped_target_id escaped_rel_type
             properties_json now))
    (put_relationship {| r_source_id := escaped_source_id; r_target_id := escaped_target_id;
                         r_rel_type := escaped_rel_type;
                         r_properties := CText properties_json;
                         r_created_at := now; r_updated_at := now |}).

Definition run_related (doc_id : string) (rel_type : option string)
  : M (list (string * string * cell * string * cell)) :=
  external StoreError (CRun (QRelated doc_id rel_type)) (select_related doc_id rel_type).

Definition run_delete_document (doc_id : string) : M unit :=
  external StoreError (CRun (QDeleteDocument doc_id)) (delete_document_row doc_id).

Definition run_delete_relationships (doc_id : string) : M unit :=
  external StoreError (CRun (QDeleteRelationships doc_id)) (delete_relationship_rows doc_id).

Definition run_all_documents : M (list (string * string * cell)) :=
  external StoreError (CRun QAllDocuments) select_all_documents.

Definition run_all_relationships : M (list (string * string * string * cell)) :=
  external StoreError (CRun QAllRelationships) select_all_relationships.

Definition run_vector_search (query_vec : list float) (k : Z)
  : M (list (float * string * string * cell)) :=
  external StoreError (CRun (QVectorSearch query_vec k)) (vector_search query_vec k).

Definition run_vector_by_id (doc_id : string) : M (list (string * string * cell)) :=
  external StoreError (CRun (QVectorById doc_id)) (select_vector doc_id).

Definition run_delete_vector (doc_id : string) : M unit :=
  external StoreError (CRun (QDeleteVector doc_id)) (delete_vector_row doc_id).

(** [model.encode(text).tolist()] *)
Definition model_encode (text : string) : M (list float) :=
  external ProviderError (CEncode text) (fun s => (Ret (encode text), s)).

(** *** Clocks and ids *)

Definition tick {A} (f : nat -> A) : M A :=
  fun w => (Ret (f (ticks w)),
            {| store := store w; faults := faults w; calls := calls w; ticks := S (ticks w) |}).

Definition now : M datetime := tick now_at.
Definition utcnow : M datetime := tick utcnow_at.
Definition uuid4 : M string := tick uuid4_at.

End Client.

Abbreviation value := (pyval datetime).
Abbreviation dict := (gmap string (pyval datetime)).
Abbreviation M := (St World).

End Client.

Export Client.

(** * [vesa/database/cozo_db.py]: class [CozoDatabase] *)

Module CozoDatabase.
Section CozoDatabase.
Context {R : Runtime}.

Definition dquote : ascii := ascii_of_nat 34.

(** [s.replace(dquote, dquote + dquote)]: every double quote is doubled. *)
Fixpoint escape_quotes (s : string) : string :=
  match s with
  | EmptyString => EmptyString
  | String c rest =>
      if Ascii.eqb c dquote
      then String dquote (String dquote (escape_quotes rest))
      else String c (escape_quotes rest)
  end.

(** [row and len(row) > 0 and row[0] == relation_name] *)
Definition names_relation (relation_name : string) (row : list string) : bool :=
  match row with
  | [] => false
  | name :: _ => name =? relation_name
  end.

Definition _relation_exists (relation_name : string) : M bool :=
  try_except
    (relations_data <- run_data_relations ;;
     ret (existsb (names_relation relation_name) relations_data))
    (fun _ => ret false).

(** [if not force and self._relation_exists(name): return], which asks the
    store only when [force] is false. *)
Definition skip_creation (force : bool) (relation_name : string) : M bool :=
  if force then ret false else _relation_exists relation_name.

Definition _create_document_schema (force : bool) : M unit :=
  skip <- skip_creation force "document" ;;
  if skip then ret tt else run_create_document.

Definition _create_relationship_schema (force : bool) : M unit :=
  skip <- skip_creation force "relationship" ;;
  if skip then ret tt else run_create_relationship.

Definition _create_vector_document_schema (force : bool) : M unit :=
  skip <- skip_creation force "vector_document" ;;
  if skip then ret tt
  else (run_create_vector_document ;;; run_hnsw_create).

Definition _verify_or_create_schemas (force_create : bool) : M unit :=
  _create_document_schema force_create ;;;
  _create_relationship_schema force_create ;;;
  _create_vector_document_schema force_create.

Definition storage_value (v : value) : value :=
  match v with
  | PDatetime d => PStr (isoformat d)
  | _ => v
  end.

Definition _process_metadata_for_storage (metadata : option dict) : dict :=
  match metadata with
  | None => ∅
  | Some m => storage_value <$> m
  end.

(** [metadata or {}] *)
Definition or_empty (metadata : option dict) : dict :=
  match metadata with
  | None => ∅
  | Some m => m
  end.

(** [json.dumps(d)] on a dictionary. *)
Definition dumps (d : dict) : M json_text :=
  match json_dumps (PDict d) with
  | Some t => ret t
  | None => raise TypeError
  end.

(** [json.loads(x)] on what a [Json] column gave back: text is decoded,
    anything else is a [TypeError]. *)
Definition loads (c : cell) : M value :=
  match c with
  | CText t =>
      match json_loads t with
      | Some v => ret v
      | None => raise JSONDecodeError
      end
  | CObj _ => raise TypeError
  end.

Definition create_document_node (doc_id title : string) (metadata : option dict) : M unit :=
  d <- utcnow ;;
  let now := isoformat d in
  let metadata := _process_metadata_for_storage (Some (or_empty metadata)) in
  try_except
    (put_document_row {| d_id := doc_id; d_title := title; d_content := "";
                         d_created_at := now; d_updated_at := now;
                         d_metadata := CObj metadata |})
    (fun _ =>
       try_except
         (let escaped_title := escape_quotes title in
          metadata_json <- dumps metadata ;;
          run_put_document doc_id escaped_title now metadata_json)
         (fun _ => raise (Failure "Error creating document"))).

Definition create_relationship (source_id target_id rel_type : string)
    (properties : option dict) : M unit :=
  d <- utcnow ;;
  let now := isoformat d in
  let processed_properties := _process_metadata_for_storage (Some (or_empty properties)) in
  try_except
    (put_relationship_row {| r_source_id := source_id; r_target_id := target_id;
                             r_rel_type := rel_type;
                             r_properties := CObj processed_properties;
                             r_created_at := now; r_updated_at := now |})
    (fun _ =>
       try_except
         (properties_json <- dumps processed_properties ;;
          let escaped_source_id := escape_quotes source_id in
          let escaped_target_id := escape_quotes target_id in
          let escaped_rel_type := escape_quotes rel_type in
          run_put_relationship escaped_source_id escaped_target_id escaped_rel_type
            properties_json now)
         (fun _ => raise (Failure "Error creating relationship"))).

(** One entry of the list [get_related_documents] returns. *)
Record related_doc : Type := {
  rd_id : string;
  rd_title : string;
  rd_metadata : value;
  rd_relationship_type : string;
  rd_relationship_properties : value
}.

(** [try: ... json.loads ... except json.JSONDecodeError: ...]: only a
    decode error is caught. *)
Definition except_decode_error {A} (body : M A) (handler : M A) : M A :=
  try_except body
    (fun e => match e with
              | JSONDecodeError => handler
              | _ => raise e
              end).

(** [if rel_type:] holds for a non-empty string. *)
Definition type_filter (rel_type : option string) : option string :=
  match rel_type with
  | Some "" => None
  | other => other
  end.

Definition related_of_row (row : string * string * cell * string * cell) : M related_doc :=
  let '(id, title, metadata_json, rel_type, properties_json) := row in
  mp <- except_decode_error
          (metadata <- loads metadata_json ;;
           properties <- loads properties_json ;;
           ret (metadata, properties))
          (ret (PDict ∅, PDict ∅)) ;;
  ret {| rd_id := id; rd_title := title; rd_metadata := fst mp;
         rd_relationship_type := rel_type;
         rd_relationship_properties := snd mp |}.

Definition get_related_documents (doc_id : string) (rel_type : option string)
  : M (list related_doc) :=
  result <- run_related doc_id (type_filter rel_type) ;;
  for_each related_of_row result.

Definition delete_document_node (doc_id : string) : M unit :=
  run_delete_document doc_id ;;;
  run_delete_relationships doc_id.

Record graph_node : Type := {
  gn_id : string;
  gn_title : string;
  gn_metadata : value
}.

Record graph_edge : Type := {
  ge_source_id : string;
  ge_target_id : string;
  ge_relationship_type : string;
  ge_properties : value
}.

Definition node_of_row (row : string * string * cell) : M graph_node :=
  let '(id, title, metadata_json) := row in
  metadata <- except_decode_error (loads metadata_json) (ret (PDict ∅)) ;;
  ret {| gn_id := id; gn_title := title; gn_metadata := metadata |}.

Definition edge_of_row (row : string * string * string * cell) : M graph_edge :=
  let '(source_id, target_id, rel_type, properties_json) := row in
  properties <- except_decode_error (loads properties_json) (ret (PDict ∅)) ;;
  ret {| ge_source_id := source_id; ge_target_id := target_id;
         ge_relationship_type := rel_type; ge_properties := properties |}.

Definition get_document_graph (depth : Z) : M (list graph_node * list graph_edge) :=
  doc_result <- run_all_documents ;;
  rel_result <- run_all_relationships ;;
  nodes <- for_each node_of_row doc_result ;;
  relationships <- for_each edge_of_row rel_result ;;
  ret (nodes, relationships).

Definition _get_text_embedding (text : string) : M (list float) :=
  model_encode text.

Definition add_vector_document (doc_id content : string) (metadata : dict) : M unit :=
  d <- utcnow ;;
  let now := isoformat d in
  embedding <- _get_text_embedding content ;;
  let processed_metadata := _process_metadata_for_storage (Some (or_empty (Some metadata))) in
  try_except
    (metadata_json <- dumps processed_metadata ;;
     put_vector_row {| v_id := doc_id; v_content := content; v_embedding := embedding;
                       v_metadata := CText metadata_json;
                       v_created_at := now; v_updated_at := now |})
    (fun _ => raise (Failure "Failed to add vector document")).

(** [json.loads(x) if isinstance(x, str) else x], with
    [except (json.JSONDecodeError, TypeError): metadata = {}]. *)
Definition metadata_of_cell (c : cell) : value :=
  match c with
  | CText t =>
      match json_loads t with
      | Some v => v
      | None => PDict ∅
      end
  | CObj m => PDict m
  end.

(** The dictionary a search hit is. [search_vector_documents] fills
    [id], [content], [metadata] and [score]; the key [distance] is one its
    caller reads, so a hit records whether it is there ([None]: no such
    key) and what it holds. *)
Record search_hit : Type := {
  h_id : string;
  h_content : string;
  h_metadata : value;
  h_score : float;
  h_distance : option (option float)
}.

(** [1.0 / (1.0 + dist) if dist > 0 else 1.0] *)
Definition score_of_distance (dist : float) : float :=
  if (0 <? dist)%float then (1 / (1 + dist))%float else 1%float.

Definition hit_of_row (row : float * string * string * cell) : search_hit :=
  let '(dist, id, content, metadata_json) := row in
  {| h_id := id; h_content := content;
     h_metadata := metadata_of_cell metadata_json;
     h_score := score_of_distance dist;
     h_distance := None |}.

Definition search_vector_documents (query : string) (n_results : Z) : M (list search_hit) :=
  try_except
    (_verify_or_create_schemas false ;;;
     query_embedding <- _get_text_embedding query ;;
     rows <- run_vector_search query_embedding n_results ;;
     match rows with
     | [] => ret []
     | _ => ret (List.map hit_of_row rows)
     end)
    (fun _ => ret []).

(** The dictionary [get_vector_document] returns. *)
Record vector_doc : Type := {
  vd_id : string;
  vd_content : string;
  vd_metadata : value
}.

(** [row[0]] *)
Definition first_column (row : list string) : M string :=
  match row with
  | [] => raise IndexError
  | name :: _ => ret name
  end.

Definition get_vector_document (doc_id : string) : M (option vector_doc) :=
  try_except
    (try_except
       (relations <- run_relations ;;
        relation_names <- for_each first_column relations ;;
        if existsb (String.eqb "vector_document") relation_names
        then ret tt
        else _create_vector_document_schema false)
       (fun _ => ret tt) ;;;
     rows <- run_vector_by_id doc_id ;;
     match rows with
     | [] => ret None
     | (id, content, metadata_json) :: _ =>
         ret (Some {| vd_id := id; vd_content := content;
                      vd_metadata := metadata_of_cell metadata_json |})
     end)
    (fun _ => ret None).

Definition delete_vector_document (doc_id : string) : M unit :=
  try_except (run_delete_vector doc_id) (fun _ => ret tt).

Definition update_vector_document (doc_id content : string) (metadata : dict) : M unit :=
  try_except
    (delete_vector_document doc_id ;;;
     add_vector_document doc_id content metadata)
    (fun _ => raise (Failure "Failed to update vector document")).

End CozoDatabase.
End CozoDatabase.

(** * [vesa/database/vector_db.py]: class [VectorDatabase] *)

Module VectorDatabase.
Section VectorDatabase.
Context {R : Runtime}.

Definition add_document (doc_id content : string) (metadata : dict) : M unit :=
  CozoDatabase.add_vector_document doc_id content metadata.

Definition search_documents (query : string) (n_results : Z)
  : M (list CozoDatabase.search_hit) :=
  CozoDatabase.search_vector_documents query n_results.

Definition get_document (doc_id : string) : M (option CozoDatabase.vector_doc) :=
  CozoDatabase.get_vector_document doc_id.

Definition update_document (doc_id content : string) (metadata : dict) : M unit :=
  CozoDatabase.update_vector_document doc_id content metadata.

Definition delete_document (doc_id : string) : M unit :=
  CozoDatabase.delete_vector_document doc_id.

End VectorDatabase.
End VectorDatabase.

(** * [vesa/models/document.py] *)

Module Models.
Section Models.
Context {R : Runtime}.

Record DocumentMetadata : Type := {
  author : string;
  tags : list string;
  created_at : datetime;
  updated_at : datetime;
  path : option string
}.

Record Document : Type := {
  doc_id : string;
  title : string;
  content : string;
  metadata : DocumentMetadata
}.

Record DocumentRelationship : Type := {
  source_id : string;
  target_id : string;
  relationship_type : string;
  properties : dict
}.

Record DocumentSearchResult : Type := {
  document : Document;
  score : float
}.

Record DocumentGraph : Type := {
  nodes : list Document;
  relationships : list DocumentRelationship
}.

(** Field validation as pydantic does it on the values of the model:
    a [str] field takes a string, [List[str]] a list of strings,
    [Optional[str]] a string or [None], a [datetime] field a datetime or
    a string in ISO format, [Dict[str, Any]] a dictionary. *)
Definition validate_str (v : value) : result string :=
  match v with
  | PStr s => Ret s
  | _ => Raise ValidationError
  end.

Fixpoint validate_str_items (l : list value) : result (list string) :=
  match l with
  | [] => Ret []
  | v :: rest =>
      match validate_str v, validate_str_items rest with
      | Ret s, Ret ss => Ret (s :: ss)
      | _, _ => Raise ValidationError
      end
  end.

Definition validate_str_list (v : value) : result (list string) :=
  match v with
  | PList l => validate_str_items l
  | _ => Raise ValidationError
  end.

Definition validate_datetime (v : value) : result datetime :=
  match v with
  | PDatetime d => Ret d
  | PStr s =>
      match fromisoformat s with
      | Some d => Ret d
      | None => Raise ValidationError
      end
  | _ => Raise ValidationError
  end.

Definition validate_optional_str (v : value) : result (option string) :=
  match v with
  | PNone => Ret None
  | PStr s => Ret (Some s)
  | _ => Raise ValidationError
  end.

Definition validate_dict (v : value) : result dict :=
  match v with
  | PDict m => Ret m
  | _ => Raise ValidationError
  end.

(** A field of a model: validated when the keyword is given, its default
    (or default factory) otherwise. *)
Definition field {A} (kw : dict) (key : string) (validate : value -> result A)
    (default : M A) : M (result A) :=
  match kw !! key with
  | Some v => ret (validate v)
  | None => a <- default ;; ret (Ret a)
  end.

(** [DocumentMetadata] built from the keywords [kw]: every field is looked at, in the order of the
    class, and one [ValidationError] is raised when any of them failed;
    keywords that are no field of the model are ignored. *)
Definition new_DocumentMetadata (kw : dict) : M DocumentMetadata :=
  a <- field kw "author" validate_str (ret "") ;;
  t <- field kw "tags" validate_str_list (ret []) ;;
  c <- field kw "created_at" validate_datetime now ;;
  u <- field kw "updated_at" validate_datetime now ;;
  p <- field kw "path" validate_optional_str (ret None) ;;
  match a, t, c, u, p with
  | Ret a, Ret t, Ret c, Ret u, Ret p =>
      ret {| author := a; tags := t; created_at := c; updated_at := u; path := p |}
  | _, _, _, _, _ => raise ValidationError
  end.

Definition optional_str_value (o : option string) : value :=
  match o with
  | Some s => PStr s
  | None => PNone
  end.

(** [DocumentMetadata.dict()] *)
Definition DocumentMetadata_dict (m : DocumentMetadata) : dict :=
  <["author" := PStr (author m)]>
    (<["tags" := PList (PStr <$> tags m)]>
       (<["created_at" := PDatetime (created_at m)]>
          (<["updated_at" := PDatetime (updated_at m)]>
             (<["path" := optional_str_value (path m)]> ∅)))).

End Models.
End Models.

Export Models.

(** * [vesa/services/document_service.py]: class [DocumentService] *)

Module DocumentService.
Section DocumentService.
Context {R : Runtime}.

(** The state of a service instance: whether the graph store answered the
    connectivity probe when the service was built. *)
Record Service : Type := {
  graph_db_available : bool
}.

(** The characters [str.strip()] removes, among the first 128. *)
Definition is_whitespace (c : ascii) : bool :=
  let n := nat_of_ascii c in
  (Nat.leb 9 n && Nat.leb n 13) || (Nat.leb 28 n && Nat.leb n 32).

Fixpoint lstrip (s : string) : string :=
  match s with
  | EmptyString => EmptyString
  | String c rest => if is_whitespace c then lstrip rest else s
  end.

Fixpoint reverse (s acc : string) : string :=
  match s with
  | EmptyString => acc
  | String c rest => reverse rest (String c acc)
  end.

(** [s.strip()] *)
Definition strip (s : string) : string :=
  reverse (lstrip (reverse (lstrip s) EmptyString)) EmptyString.

(** [s.split(",")] *)
Fixpoint split_comma (s : string) : list string :=
  match s with
  | EmptyString => [EmptyString]
  | String c rest =>
      if Ascii.eqb c ","%char then EmptyString :: split_comma rest
      else match split_comma rest with
           | [] => [String c EmptyString]
           | word :: words => String c word :: words
           end
  end.

(** The tags entry: a string becomes the list of its stripped,
    comma-separated parts (the empty list when it is empty). *)
Definition process_tags (v : value) : value :=
  match v with
  | PStr "" => PList []
  | PStr s => PList (List.map (fun tag => PStr (strip tag)) (split_comma s))
  | _ => v
  end.

(** A date entry: a string becomes the datetime it spells in ISO format,
    or the current time when it spells none. *)
Definition process_date (date_field : string) (processed : dict) : M dict :=
  match processed !! date_field with
  | Some (PStr s) =>
      match fromisoformat s with
      | Some d => ret (<[date_field := PDatetime d]> processed)
      | None => d <- now ;; ret (<[date_field := PDatetime d]> processed)
      end
  | _ => ret processed
  end.

(** [metadata.copy()] and what follows need a dictionary: a list has
    [copy] but no string keys ([TypeError]), the other values have no
    [copy] ([AttributeError]). *)
Definition _process_metadata_for_model (metadata : value) : M dict :=
  match metadata with
  | PDict m =>
      let processed := alter process_tags "tags" m in
      processed <- process_date "created_at" processed ;;
      process_date "updated_at" processed
  | PList _ => raise TypeError
  | _ => raise AttributeError
  end.

(** [d[key]] *)
Definition getitem (d : dict) (key : string) : M value :=
  match d !! key with
  | Some v => ret v
  | None => raise (KeyError key)
  end.

(** [metadata.get(key, default)] *)
Definition get_or (metadata : dict) (key : string) (default : value) : value :=
  match metadata !! key with
  | Some v => v
  | None => default
  end.

(** [Document(id=..., title=processed_metadata["title"], content=...,
    metadata=...)] with the metadata model built from the keywords
    [processed_metadata]: the arguments are
    evaluated from left to right, then the model validates its fields. *)
Definition document_of (id : string) (content : string) (stored : value) : M Document :=
  processed_metadata <- _process_metadata_for_model stored ;;
  title_value <- getitem processed_metadata "title" ;;
  doc_metadata <- new_DocumentMetadata processed_metadata ;;
  title <- lift (validate_str title_value) ;;
  ret {| doc_id := id; title := title; content := content; metadata := doc_metadata |}.

(** [{"title": title, **doc_metadata.dict()}] *)
Definition stored_metadata (title : string) (doc_metadata : DocumentMetadata) : dict :=
  DocumentMetadata_dict doc_metadata ∪ {[ "title" := PStr title ]}.

(** The best-effort mirror into the graph store. *)
Definition mirror_node (self : Service) (doc_id title : string)
    (doc_metadata : DocumentMetadata) : M unit :=
  if graph_db_available self then
    try_except
      (CozoDatabase.create_document_node doc_id title
         (Some (DocumentMetadata_dict doc_metadata)))
      (fun _ => ret tt)
  else ret tt.

Definition create_document (self : Service) (title content : string)
    (metadata : option dict) : M Document :=
  let metadata := match metadata with None => ∅ | Some m => m end in
  doc_id <- uuid4 ;;
  created <- now ;;
  updated <- now ;;
  doc_metadata <- new_DocumentMetadata
                    (<["author" := get_or metadata "author" (PStr "")]>
                       (<["tags" := get_or metadata "tags" (PList [])]>
                          (<["created_at" := PDatetime created]>
                             (<["updated_at" := PDatetime updated]>
                                (<["path" := get_or metadata "path" PNone]> ∅))))) ;;
  let document := {| doc_id := doc_id; title := title; content := content;
                     metadata := doc_metadata |} in
  VectorDatabase.add_document doc_id content (stored_metadata title doc_metadata) ;;;
  mirror_node self doc_id title doc_metadata ;;;
  ret document.

Definition get_document (self : Service) (doc_id : string) : M (option Document) :=
  doc_data <- VectorDatabase.get_document doc_id ;;
  match doc_data with
  | None => ret None
  | Some doc_data =>
      doc <- document_of (CozoDatabase.vd_id doc_data) (CozoDatabase.vd_content doc_data)
               (CozoDatabase.vd_metadata doc_data) ;;
      ret (Some doc)
  end.

Definition update_document (self : Service) (doc_id title content : string)
    (metadata : option dict) : M (option Document) :=
  existing_doc <- get_document self doc_id ;;
  match existing_doc with
  | None => ret None
  | Some existing_doc =>
      let metadata := match metadata with None => ∅ | Some m => m end in
      let existing := Models.metadata existing_doc in
      updated <- now ;;
      doc_metadata <- new_DocumentMetadata
                        (<["author" := get_or metadata "author" (PStr (author existing))]>
                           (<["tags" := get_or metadata "tags" (PList (PStr <$> tags existing))]>
                              (<["created_at" := PDatetime (created_at existing)]>
                                 (<["updated_at" := PDatetime updated]>
                                    (<["path" := get_or metadata "path"
                                                   (optional_str_value (path existing))]> ∅))))) ;;
      let document := {| doc_id := doc_id; title := title; content := content;
                         metadata := doc_metadata |} in
      VectorDatabase.update_document doc_id content (stored_metadata title doc_metadata) ;;;
      mirror_node self doc_id title doc_metadata ;;;
      ret (Some document)
  end.

Definition delete_document (self : Service) (doc_id : string) : M bool :=
  doc <- get_document self doc_id ;;
  match doc with
  | None => ret false
  | Some _ =>
      VectorDatabase.delete_document doc_id ;;;
      (if graph_db_available self then
         try_except (CozoDatabase.delete_document_node doc_id) (fun _ => ret tt)
       else ret tt) ;;;
      ret true
  end.

(** [1.0 - (result["distance"] or 0) if result["distance"] is not None
    else 1.0]: the key is read first, and a hit without it is a
    [KeyError]. *)
Definition score_of_hit (result : CozoDatabase.search_hit) : M float :=
  match CozoDatabase.h_distance result with
  | None => raise (KeyError "distance")
  | Some None => ret 1%float
  | Some (Some distance) =>
      ret (if (distance =? 0)%float then (1 - 0)%float else (1 - distance)%float)
  end.

Definition search_result_of (result : CozoDatabase.search_hit) : M DocumentSearchResult :=
  doc <- document_of (CozoDatabase.h_id result) (CozoDatabase.h_content result)
           (CozoDatabase.h_metadata result) ;;
  score <- score_of_hit result ;;
  ret {| document := doc; score := score |}.

Definition search_documents (self : Service) (query : string) (limit : Z)
  : M (list DocumentSearchResult) :=
  results <- VectorDatabase.search_documents query limit ;;
  for_each search_result_of results.

Definition create_relationship (self : Service) (source_id target_id rel_type : string)
    (properties : option dict) : M (option DocumentRelationship) :=
  source_doc <- get_document self source_id ;;
  target_doc <- get_document self target_id ;;
  match source_doc, target_doc with
  | Some _, Some _ =>
      let properties := match properties with None => ∅ | Some p => p end in
      (if graph_db_available self then
         try_except
           (CozoDatabase.create_relationship source_id target_id rel_type (Some properties))
           (fun _ => ret tt)
       else ret tt) ;;;
      ret (Some {| source_id := source_id; target_id := target_id;
                   relationship_type := rel_type; properties := properties |})
  | _, _ => ret None
  end.

(** [for x in xs: doc = self.get_document(x); if doc: documents.append(doc)] *)
Fixpoint collect_documents (self : Service) (ids : list string) : M (list Document) :=
  match ids with
  | [] => ret []
  | id :: rest =>
      doc <- get_document self id ;;
      docs <- collect_documents self rest ;;
      ret (match doc with Some d => d :: docs | None => docs end)
  end.

Definition get_related_documents (self : Service) (doc_id : string) (rel_type : option string)
  : M (list Document) :=
  if graph_db_available self then
    related <- try_except
                 (r <- CozoDatabase.get_related_documents doc_id rel_type ;; ret (Some r))
                 (fun _ => ret None) ;;
    match related with
    | None => ret []
    | Some related => collect_documents self (List.map CozoDatabase.rd_id related)
    end
  else ret [].

Definition relationship_of (rel_data : CozoDatabase.graph_edge) : M DocumentRelationship :=
  props <- lift (validate_dict (CozoDatabase.ge_properties rel_data)) ;;
  ret {| source_id := CozoDatabase.ge_source_id rel_data;
         target_id := CozoDatabase.ge_target_id rel_data;
         relationship_type := CozoDatabase.ge_relationship_type rel_data;
         properties := props |}.

Definition get_document_graph (self : Service) (depth : Z) : M DocumentGraph :=
  if graph_db_available self then
    graph_data <- try_except
                    (g <- CozoDatabase.get_document_graph depth ;; ret (Some g))
                    (fun _ => ret None) ;;
    match graph_data with
    | None => ret {| nodes := []; relationships := [] |}
    | Some (node_rows, edge_rows) =>
        nodes <- collect_documents self (List.map CozoDatabase.gn_id node_rows) ;;
        relationships <- for_each relationship_of edge_rows ;;
        ret {| nodes := nodes; relationships := relationships |}
    end
  else ret {| nodes := []; relationships := [] |}.

End DocumentService.
End DocumentService.

(** * Construction: the [__init__] methods *)

Module Construction.
Section Construction.
Context {R : Runtime}.

(** [CozoDatabase.__init__]. The two collaborators it asks first are
    inputs here: [db_exists] is what [os.path.exists(db_path)] answered,
    [opens] whether [Client(engine="sqlite", path=db_path)] returned. *)
Definition CozoDatabase__init__ (db_exists opens : bool) : M unit :=
  if opens then CozoDatabase._verify_or_create_schemas (negb db_exists)
  else raise StoreError.

(** [VectorDatabase.__init__]: [self.db = CozoDatabase()]. *)
Definition VectorDatabase__init__ (db_exists opens : bool) : M unit :=
  CozoDatabase__init__ db_exists opens.

(** [DocumentService.__init__]: the vector database, then the graph
    database and its connectivity probe under one [try]. *)
Definition DocumentService__init__
    (vector_exists vector_opens graph_exists graph_opens : bool)
  : M DocumentService.Service :=
  VectorDatabase__init__ vector_exists vector_opens ;;;
  try_except
    (CozoDatabase__init__ graph_exists graph_opens ;;;
     run_probe ;;;
     ret {| DocumentService.graph_db_available := true |})
    (fun _ => ret {| DocumentService.graph_db_available := false |}).

End Construction.
End Construction.

(** * [vesa/models/document.py]: [Document.to_dict] and [Document.from_dict] *)

Module DocumentDict.
Section DocumentDict.
Context {R : Runtime}.

Definition to_dict (self : Document) : dict :=
  <["id" := PStr (doc_id self)]>
    (<["title" := PStr (title self)]>
       (<["content" := PStr (content self)]>
          (<["metadata" := PDict (DocumentMetadata_dict (metadata self))]> ∅))).

(** [from_dict]: the metadata entry (the empty dictionary when there is
    none) is turned into the model first when it is a dictionary; then the
    three keys are read from left to right; then the model validates its
    four fields, and an entry that is no dictionary fails there. *)
Definition from_dict (data : dict) : M Document :=
  metadata <- match DocumentService.get_or data "metadata" (PDict ∅) with
              | PDict m => built <- new_DocumentMetadata m ;; ret (Ret built)
              | _ => ret (Raise ValidationError)
              end ;;
  id <- DocumentService.getitem data "id" ;;
  title <- DocumentService.getitem data "title" ;;
  content <- DocumentService.getitem data "content" ;;
  match validate_str id, validate_str title, validate_str content, metadata with
  | Ret id, Ret title, Ret content, Ret metadata =>
      ret {| doc_id := id; title := title; content := content; metadata := metadata |}
  | _, _, _, _ => raise ValidationError
  end.

End DocumentDict.
End DocumentDict.

(** * [vesa/routes/web_routes.py]: the tags of a form *)

Module WebRoutes.

(** [[tag.strip() for tag in tags.split(",") if tag.strip()]] *)
Definition tag_list (tags : string) : list string :=
  List.map DocumentService.strip
    (List.filter (fun tag => negb (DocumentService.strip tag =? ""))
       (DocumentService.split_comma tags)).

Section WebRoutes.
Context {R : Runtime}.

(** The handler of [POST /documents/new]; what it returns is the target
    of the redirect. *)
Definition create_document (service : DocumentService.Service) (title content tags : string)
  : M string :=
  let tag_list := tag_list tags in
  let metadata : dict := {[ "tags" := PList (PStr <$> tag_list) ]} in
  document <- DocumentService.create_document service title content (Some metadata) ;;
  ret (String.append "/documents/" (doc_id document)).

End WebRoutes.

End WebRoutes.

(** * [vesa/utils/markdown_utils.py] *)

Module MarkdownUtils.

(** A match object of [re]: where it starts and ends, and its groups. *)
Record re_match : Type := {
  m_start : Z;
  m_end : Z;
  m_group : nat -> string
}.

Section MarkdownUtils.

(** The regular expression engine is Python's: [re.finditer(pattern,
    text)] and [re.sub(pattern, repl, text)], the latter with or without
    [re.DOTALL]. *)
Variable finditer : string -> string -> list re_match.
Variable sub : string -> string -> bool -> string -> string.

Definition tag_pattern : string := "(?:^|\s)#([a-zA-Z0-9_-]+)".

(** [if tag not in tags: tags.append(tag)] *)
Definition add_tag (tags : list string) (found : re_match) : list string :=
  let tag := m_group found 1 in
  if existsb (String.eqb tag) tags then tags else tags ++ [tag].

Definition extract_tags (text : string) : list string :=
  fold_left add_tag (finditer tag_pattern text) [].





End MarkdownUtils.
End MarkdownUtils.

(** * A runtime to run the model on

    Datetimes are tick counts and print as a [T] followed by that many
    [+]; a JSON text is the value it spells, or [None] when it spells
    none. *)

Module Sample.

Fixpoint plus_signs (n : nat) : string :=
  match n with
  | O => EmptyString
  | S k => String "+" (plus_signs k)
  end.

Fixpoint count_plus_signs (s : string) : option nat :=
  match s with
  | EmptyString => Some O
  | String c rest =>
      if Ascii.eqb c "+"%char
      then match count_plus_signs rest with
           | Some n => Some (S n)
           | None => None
           end
      else None
  end.

Definition print_stamp (n : nat) : string := String "T" (plus_signs n).

Definition parse_stamp (s : string) : option nat :=
  match s with
  | String c rest => if Ascii.eqb c "T"%char then count_plus_signs rest else None
  | EmptyString => None
  end.

Definition nearest (query_vec : list float) (k : Z) (rows : list (string * list float))
  : list (float * string) :=
  List.map (fun row => (0.5%float, fst row)) (firstn (Z.to_nat k) rows).

Definition runtime : Runtime := {|
  datetime := nat;
  isoformat := print_stamp;
  fromisoformat := parse_stamp;
  json_text := option (pyval nat);
  json_dumps := fun v => Some (Some v);
  json_loads := fun t => t;
  encode := fun _ => [1%float; 0%float];
  hnsw_search := nearest;
  now_at := fun n => n;
  utcnow_at := fun n => n;
  uuid4_at := fun n => String "d" (plus_signs n)
|}.

(** A store with the three relations created and nothing in them. *)
Definition fresh_store : @Store runtime := {|
  document_rel := Some [];
  relationship_rel := Some [];
  vector_document_rel := Some {| vec_rows := []; vec_indexed := true |}
|}.

(** The world of [fresh_store] in which the collaborators fail as
    [tape] says. *)
Definition world_with (s : @Store runtime) (tape : list bool) : @World runtime :=
  {| store := s; faults := tape; calls := []; ticks := 0 |}.

Definition service : DocumentService.Service := {| DocumentService.graph_db_available := true |}.

Definition start : @World runtime := world_with fresh_store [].

(** The metadata of the sample document: two tags and nothing else. *)
Definition two_tags : gmap string (pyval nat) := <["tags" := PList [PStr "a"; PStr "b"]]> ∅.


(** The world after the sample document was created in [start]. *)
Definition after_create : @World runtime :=
  snd (DocumentService.create_document (R := runtime) service "T1" "hello" (Some two_tags) start).

(** The sample document after an update that names only an author. *)
Definition author_me : gmap string (pyval nat) := <["author" := PStr "me"]> ∅.

Definition updated_document : @Document runtime :=
  Build_Document (R := runtime) "d" "T2" "bye"
    (Build_DocumentMetadata (R := runtime) "me" ["a"; "b"] 1%nat 5%nat None).

Definition after_update : @World runtime :=
  snd (DocumentService.update_document (R := runtime) service "d" "T2" "bye"
         (Some author_me) after_create).


(** Creating the sample document on a store whose vector [put] raises. *)
Definition failed_create : result (@Document runtime) * @World runtime :=
  DocumentService.create_document (R := runtime) service "T1" "hello" (Some two_tags)
    (world_with fresh_store [false; true]).

(** A store in which no relation was created yet. *)
Definition blank_store : @Store runtime := Build_Store (R := runtime) None None None.

(** Text that spells no JSON value, and the text of the empty object. *)
Definition no_json : @json_text runtime := None.

(** A store whose only vector row holds text that spells no JSON value. *)
Definition broken_store : @Store runtime :=
  Build_Store (R := runtime) (Some []) (Some [])
    (Some (Build_vec_relation (R := runtime)
             [Build_vec_row (R := runtime) "x" "c" [] (CText no_json) "T" "T"] true)).





(** A title that starts with a double quote. *)
Definition quoted_title : string := String CozoDatabase.dquote "T".

End Sample.

(** * Vocabulary of the statements *)

Section Vocabulary.
Context {R : Runtime}.

(** A computation keeps [Rel] between the world it starts in and the one it
    leaves, however it ends. *)
Definition respects (Rel : World -> World -> Prop) {A} (c : M A) : Prop :=
  forall w r w', c w = (r, w') -> Rel w w'.

(** Only the clocks were read. *)
Definition only_ticks (w w' : World) : Prop :=
  store w' = store w /\ faults w' = faults w /\ calls w' = calls w.

(** The vector relation is as it was, and a store that raised nothing
    still raises nothing. *)
Definition graph_step (w w' : World) : Prop :=
  vector_document_rel (store w') = vector_document_rel (store w)
  /\ (faults w = [] -> faults w' = []).

(** The vector relation holds exactly one row for [id], with this content
    and this metadata text. *)
Definition holds_vector (s : Store) (id content : string) (t : json_text) : Prop :=
  exists v row,
    vector_document_rel s = Some v
    /\ List.filter (fun r => v_id r =? id) (vec_rows v) = [row]
    /\ v_id row = id /\ v_content row = content /\ v_metadata row = CText t.


End Vocabulary.

(** * More vocabulary *)

Section MoreVocabulary.
Context {R : Runtime}.

(** The two graph relations are as they were, and a store that raised
    nothing still raises nothing. *)
Definition keeps_graph (w w' : World) : Prop :=
  document_rel (store w') = document_rel (store w)
  /\ relationship_rel (store w') = relationship_rel (store w)
  /\ (faults w = [] -> faults w' = []).

(** The errors that say a stored record has the wrong shape. *)
Definition malformed_record (e : exn) : Prop :=
  e = KeyError "title" \/ e = ValidationError \/ e = TypeError \/ e = AttributeError.

(** How many double quotes a string holds. *)
Fixpoint count_quotes (s : string) : nat :=
  match s with
  | EmptyString => 0
  | String c rest =>
      (if Ascii.eqb c CozoDatabase.dquote then 1 else 0) + count_quotes rest
  end.


(** The string starts, or ends, with a character that [strip] removes. *)
Definition leading_whitespace (s : string) : bool :=
  match s with
  | EmptyString => false
  | String c _ => DocumentService.is_whitespace c
  end.



End MoreVocabulary.

(** * More cases to run the model on *)

Module Cases.

(** A document dictionary without a metadata entry. *)
Definition bare_document : gmap string (pyval nat) :=
  <["id" := PStr "1"]> (<["title" := PStr "T"]> (<["content" := PStr "c"]> ∅)).





(** A service whose graph store did not answer when it was built. *)
Definition without_graph : DocumentService.Service :=
  {| DocumentService.graph_db_available := false |}.


End Cases.

(** * Facts about the effects *)

Section Effects.
Context {R : Runtime}.

Lemma bind_ret_inv {A B} (c : M A) (k : A -> M B) w b w' :
  bind c k w = (Ret b, w') ->
  exists a w1, c w = (Ret a, w1) /\ k a w1 = (Ret b, w').
Proof.
  unfold bind. destruct (c w) as [[a|e] w1]; intros H; [eauto | discriminate].
Qed.

Lemma try_except_raise_ret_inv {A} (c : M A) (e : exn) w a w' :
  try_except c (fun _ => raise e) w = (Ret a, w') -> c w = (Ret a, w').
Proof.
  unfold try_except, raise. destruct (c w) as [[x|x] w1]; intros H; [assumption | discriminate].
Qed.

(** [try: c except Exception: pass] returns, whatever [c] does. *)
Lemma try_swallow (c : M unit) (w : World) :
  try_except c (fun _ => ret tt) w = (Ret tt, snd (c w)).
Proof. unfold try_except, ret. destruct (c w) as [[[]|e] w1]; reflexivity. Qed.

Lemma tick_run {A} (f : nat -> A) (w : World) :
  tick f w = (Ret (f (ticks w)),
              {| store := store w; faults := faults w; calls := calls w; ticks := S (ticks w) |}).
Proof. reflexivity. Qed.

(** On a store that raises nothing, a call is answered. *)
Lemma external_quiet {A} err c (answer : Store -> result A * Store) w :
  faults w = [] ->
  external err c answer w = (fst (answer (store w)), logged w (snd (answer (store w))) c).
Proof. unfold external. intros ->. reflexivity. Qed.

Lemma external_fault {A} err c (answer : Store -> result A * Store) (w : World) fs :
  faults w = true :: fs ->
  external err c answer w = (Raise err, logged w (store w) c).
Proof. unfold external. intros ->. reflexivity. Qed.

Lemma logged_quiet w s c : faults w = [] -> faults (logged w s c) = [].
Proof. unfold logged. simpl. intros ->. reflexivity. Qed.

Lemma external_ret_inv {A} err c (answer : Store -> result A * Store) w a w' :
  external err c answer w = (Ret a, w') ->
  fst (answer (store w)) = Ret a /\ w' = logged w (snd (answer (store w))) c.
Proof.
  unfold external. destruct (faults w) as [|[] fs]; intros H; inversion H; auto.
Qed.


Lemma for_each_app_raise {A B} (f : A -> M B) pre x post (w : World) ys w1 e w2 :
  for_each f pre w = (Ret ys, w1) ->
  f x w1 = (Raise e, w2) ->
  for_each f (pre ++ x :: post) w = (Raise e, w2).
Proof.
  revert w ys. induction pre as [|p pre IH]; intros w ys Hpre Hx; cbn [for_each app] in *.
  - inversion Hpre; subst. unfold bind. rewrite Hx. reflexivity.
  - apply bind_ret_inv in Hpre as (y & wa & Hy & Hpre).
    apply bind_ret_inv in Hpre as (ys' & wb & Hys & Hpre). inversion Hpre; subst; clear Hpre.
    unfold bind at 1. rewrite Hy. unfold bind at 1. rewrite (IH _ _ Hys Hx). reflexivity.
Qed.

Lemma for_each_app_never_returns {A B} (f : A -> M B) pre x post :
  (forall w, exists e w', f x w = (Raise e, w')) ->
  forall w : World, exists e w', for_each f (pre ++ x :: post) w = (Raise e, w').
Proof.
  intros Hx. induction pre as [|p pre IH]; intros w; cbn [for_each app].
  - unfold bind. destruct (Hx w) as (e & w' & ->). eauto.
  - unfold bind at 1. destruct (f p w) as [[y|e] wa]; [|eauto].
    unfold bind at 1. destruct (IH wa) as (e & w' & ->). eauto.
Qed.

End Effects.

(** ** Computations that keep a relation between the worlds *)

Section Respects.
Context {R : Runtime}.
Variable Rel : World -> World -> Prop.
Hypothesis Rel_refl : forall w, Rel w w.
Hypothesis Rel_trans : forall a b c, Rel a b -> Rel b c -> Rel a c.

Lemma respects_run {A} (c : M A) : respects Rel c -> forall w, Rel w (snd (c w)).
Proof. intros H w. apply (H w (fst (c w))). apply surjective_pairing. Qed.

Lemma respects_ret {A} (a : A) : respects Rel (ret a).
Proof. intros w r w' H. inversion H. apply Rel_refl. Qed.

Lemma respects_raise {A} (e : exn) : respects Rel (raise (A:=A) e).
Proof. intros w r w' H. inversion H. apply Rel_refl. Qed.

Lemma respects_lift {A} (x : result A) : respects Rel (lift x).
Proof. intros w r w' H. inversion H. apply Rel_refl. Qed.

Lemma respects_bind {A B} (c : M A) (k : A -> M B) :
  respects Rel c -> (forall a, respects Rel (k a)) -> respects Rel (bind c k).
Proof.
  intros Hc Hk w r w' H. unfold bind in H.
  destruct (c w) as [[a|e] w1] eqn:E.
  - eapply Rel_trans; [eapply Hc; eassumption | eapply Hk; eassumption].
  - inversion H; subst. eapply Hc; eassumption.
Qed.

Lemma respects_try_except {A} (c : M A) (h : exn -> M A) :
  respects Rel c -> (forall e, respects Rel (h e)) -> respects Rel (try_except c h).
Proof.
  intros Hc Hh w r w' H. unfold try_except in H.
  destruct (c w) as [[a|e] w1] eqn:E.
  - inversion H; subst. eapply Hc; eassumption.
  - eapply Rel_trans; [eapply Hc; eassumption | eapply Hh; eassumption].
Qed.

Lemma respects_for_each {A B} (f : A -> M B) (xs : list A) :
  (forall x, respects Rel (f x)) -> respects Rel (for_each f xs).
Proof.
  intros Hf. induction xs as [|x xs IH]; cbn [for_each].
  - apply respects_ret.
  - apply respects_bind; [apply Hf|]. intros y.
    apply respects_bind; [apply IH|]. intros ys. apply respects_ret.
Qed.

End Respects.

Section Frames.
Context {R : Runtime}.

Lemma only_ticks_refl w : only_ticks w w.
Proof. repeat split. Qed.

Lemma only_ticks_trans a b c : only_ticks a b -> only_ticks b c -> only_ticks a c.
Proof. unfold only_ticks. intros (?&?&?) (?&?&?). repeat split; congruence. Qed.

Lemma graph_step_refl w : graph_step w w.
Proof. split; auto. Qed.

Lemma graph_step_trans a b c : graph_step a b -> graph_step b c -> graph_step a c.
Proof. unfold graph_step. intros [? ?] [? ?]. split; [congruence | auto]. Qed.

Lemma tick_only_ticks {A} (f : nat -> A) : respects only_ticks (tick f).
Proof. intros w r w' H. inversion H. repeat split. Qed.

Lemma tick_graph_step {A} (f : nat -> A) : respects graph_step (tick f).
Proof. intros w r w' H. inversion H. split; auto. Qed.

Lemma external_graph_step {A} err c (answer : Store -> result A * Store) :
  (forall s, vector_document_rel (snd (answer s)) = vector_document_rel s) ->
  respects graph_step (external err c answer).
Proof.
  intros Ha w r w' H. unfold external in H.
  destruct (faults w) as [|[] fs] eqn:E; inversion H; subst; unfold logged; simpl;
    rewrite ?E; (split; [cbn [store]; auto | intros; simpl; congruence]).
Qed.

End Frames.

Create HintDb frames.
#[global] Hint Resolve only_ticks_refl only_ticks_trans graph_step_refl graph_step_trans : frames.

(** One step of a frame proof: follow the shape of the computation. *)
Ltac frame_step :=
  match goal with
  | |- respects _ (ret _) => apply respects_ret; auto with frames
  | |- respects _ (raise _) => apply respects_raise; auto with frames
  | |- respects _ (lift _) => apply respects_lift; auto with frames
  | |- respects _ (bind _ _) => apply respects_bind; [eauto with frames | | intros]
  | |- respects _ (try_except _ _) => apply respects_try_except; [eauto with frames | | intros]
  | |- respects only_ticks (tick _) => apply tick_only_ticks
  | |- respects graph_step (tick _) => apply tick_graph_step
  | |- respects graph_step (external _ _ _) => apply external_graph_step; intros
  | |- respects _ (match ?x with _ => _ end) => destruct x
  end.

Ltac frame := repeat frame_step.

(** * Facts about the facade *)

Section FacadeFacts.
Context {R : Runtime}.

Lemma filter_filter_negb {A} (p : A -> bool) (l : list A) :
  List.filter p (List.filter (fun x => negb (p x)) l) = [].
Proof.
  induction l as [|x l IH]; [reflexivity|]. cbn [List.filter].
  destruct (p x) eqn:E; cbn [negb List.filter]; [assumption | rewrite E; assumption].
Qed.

Lemma upsert_vec_select (row : vec_row) rows :
  List.filter (fun r => v_id r =? v_id row) (upsert_vec row rows) = [row].
Proof.
  unfold upsert_vec. rewrite List.filter_app.
  rewrite (filter_filter_negb (fun r => v_id r =? v_id row)).
  cbn [List.filter]. rewrite String.eqb_refl. reflexivity.
Qed.

Lemma catalog_names (s : Store) (w : World) :
  for_each CozoDatabase.first_column (catalog s) w
  = (Ret (List.map (fun row => match row with [] => "" | n :: _ => n end) (catalog s)), w).
Proof.
  unfold catalog.
  destruct (document_rel s), (relationship_rel s), (vector_document_rel s); reflexivity.
Qed.

(** Reading by id on a store that answers and has the vector relation:
    two calls, and the first row with that id if there is one. *)
Lemma get_vector_document_quiet doc_id w v :
  faults w = [] ->
  vector_document_rel (store w) = Some v ->
  CozoDatabase.get_vector_document doc_id w
  = (Ret (match List.filter (fun r => v_id r =? doc_id) (vec_rows v) with
          | [] => None
          | r :: _ =>
              Some {| CozoDatabase.vd_id := v_id r;
                      CozoDatabase.vd_content := v_content r;
                      CozoDatabase.vd_metadata := CozoDatabase.metadata_of_cell (v_metadata r) |}
          end),
     logged (logged w (store w) (CRun QRelations)) (store w) (CRun (QVectorById doc_id))).
Proof.
  intros Hq Hv.
  unfold CozoDatabase.get_vector_document, try_except, bind, run_relations, run_vector_by_id.
  rewrite external_quiet by assumption. simpl fst. simpl snd.
  cbv beta iota. rewrite catalog_names.
  assert (Hex : existsb (String.eqb "vector_document")
                  (List.map (fun row => match row with [] => "" | n :: _ => n end)
                     (catalog (store w))) = true).
  { unfold catalog. rewrite Hv.
    destruct (document_rel (store w)), (relationship_rel (store w)); reflexivity. }
  rewrite Hex. unfold ret at 1.
  rewrite external_quiet by (apply logged_quiet; assumption).
  unfold select_vector. simpl store. rewrite Hv. simpl fst. simpl snd.
  destruct (List.filter _ (vec_rows v)) as [|r rest]; reflexivity.
Qed.


Lemma add_vector_document_ret_inv doc_id content md w w' :
  CozoDatabase.add_vector_document doc_id content md w = (Ret tt, w') ->
  exists t, json_dumps (PDict (CozoDatabase.storage_value <$> md)) = Some t
            /\ holds_vector (store w') doc_id content t.
Proof.
  unfold CozoDatabase.add_vector_document, utcnow, CozoDatabase._get_text_embedding, model_encode.
  intros H.
  apply bind_ret_inv in H as (d & w1 & Htick & H). rewrite tick_run in Htick.
  inversion Htick; subst d w1; clear Htick.
  apply bind_ret_inv in H as (emb & w2 & Henc & H).
  apply external_ret_inv in Henc as [_ ->].
  apply try_except_raise_ret_inv in H.
  apply bind_ret_inv in H as (t & w3 & Hd & H).
  unfold CozoDatabase.dumps, CozoDatabase._process_metadata_for_storage, CozoDatabase.or_empty in Hd.
  destruct (json_dumps (PDict (CozoDatabase.storage_value <$> md))) as [t'|] eqn:Ht; [|discriminate].
  inversion Hd; subst t' w3; clear Hd.
  unfold put_vector_row in H. apply external_ret_inv in H as [Hput ->].
  exists t. split; [reflexivity|].
  unfold put_vector in *. cbn [store logged] in *.
  destruct (vector_document_rel (store w)) as [v|]; [|discriminate].
  cbn [snd vector_document_rel].
  eexists _, _. split; [reflexivity|]. cbn [vec_rows].
  split; [apply (upsert_vec_select {| v_id := doc_id |}) |]. cbn. auto.
Qed.

(** A raising [put] ends [add_vector_document]: two calls, no retry. *)
Lemma add_vector_document_put_raises doc_id content (md : dict) (w : World) fs t :
  faults w = false :: true :: fs ->
  json_dumps (PDict (CozoDatabase.storage_value <$> md)) = Some t ->
  exists w',
    CozoDatabase.add_vector_document doc_id content md w
    = (Raise (Failure "Failed to add vector document"), w')
    /\ store w' = store w /\ faults w' = fs
    /\ calls w' = calls w ++
         [CEncode content;
          CPutVector {| v_id := doc_id; v_content := content; v_embedding := encode content;
                        v_metadata := CText t;
                        v_created_at := isoformat (utcnow_at (ticks w));
                        v_updated_at := isoformat (utcnow_at (ticks w)) |}].
Proof.
  intros Hf Ht.
  unfold CozoDatabase.add_vector_document, utcnow, CozoDatabase._get_text_embedding, model_encode.
  unfold bind at 1. rewrite tick_run. unfold bind at 1.
  unfold external at 1. cbn [faults store]. rewrite Hf. cbn [fst snd].
  unfold try_except, bind, CozoDatabase.dumps, CozoDatabase._process_metadata_for_storage,
    CozoDatabase.or_empty. rewrite Ht. unfold ret at 1.
  unfold put_vector_row, external. cbn. rewrite ?Hf. cbn.
  eexists. split; [reflexivity|]. cbn. rewrite <- app_assoc. auto.
Qed.

Lemma add_vector_document_put_fault doc_id content (md : dict) (w : World) fs :
  faults w = false :: true :: fs ->
  exists w',
    CozoDatabase.add_vector_document doc_id content md w
    = (Raise (Failure "Failed to add vector document"), w')
    /\ existsb is_manual_put (calls w') = existsb is_manual_put (calls w).
Proof.
  intros Hf.
  destruct (json_dumps (PDict (CozoDatabase.storage_value <$> md))) as [t|] eqn:Ht.
  - destruct (add_vector_document_put_raises doc_id content md w fs t Hf Ht)
      as (w' & Hrun & _ & _ & Hcalls).
    exists w'. split; [exact Hrun|]. rewrite Hcalls, existsb_app. cbn. apply orb_false_r.
  - unfold CozoDatabase.add_vector_document, utcnow, CozoDatabase._get_text_embedding, model_encode.
    unfold bind at 1. rewrite tick_run. unfold bind at 1.
    unfold external at 1. cbn [faults store]. rewrite Hf. cbn [fst snd].
    unfold try_except, bind, CozoDatabase.dumps, CozoDatabase._process_metadata_for_storage,
      CozoDatabase.or_empty. rewrite Ht. unfold raise.
    eexists. split; [reflexivity|]. cbn. rewrite existsb_app. cbn. apply orb_false_r.
Qed.

(** After a raising [put], [create_document_node] runs the hand-built
    script once and ends as that run ends. *)
Lemma create_document_node_retry doc_id title (md : option dict) (w : World) fs t :
  faults w = true :: fs ->
  json_dumps (PDict (CozoDatabase.storage_value <$> CozoDatabase.or_empty md)) = Some t ->
  let now := isoformat (utcnow_at (ticks w)) in
  let row := {| d_id := doc_id; d_title := title; d_content := "";
                d_created_at := now; d_updated_at := now;
                d_metadata := CObj (CozoDatabase.storage_value <$> CozoDatabase.or_empty md) |} in
  let failed := logged {| store := store w; faults := faults w; calls := calls w;
                          ticks := S (ticks w) |} (store w) (CPutDocument row) in
  let retry := run_put_document doc_id (CozoDatabase.escape_quotes title) now t failed in
  CozoDatabase.create_document_node doc_id title md w
  = (match fst retry with
     | Ret _ => Ret tt
     | Raise _ => Raise (Failure "Error creating document")
     end, snd retry).
Proof.
  intros Hf Ht now row failed retry.
  unfold CozoDatabase.create_document_node, utcnow.
  unfold bind at 1. rewrite tick_run.
  unfold try_except at 1. unfold put_document_row.
  rewrite (external_fault _ _ _ _ fs) by exact Hf. cbn [store].
  unfold try_except, bind, CozoDatabase.dumps, CozoDatabase._process_metadata_for_storage.
  rewrite Ht. unfold ret at 1.
  fold now. fold row. fold failed. fold retry.
  destruct retry as [[[]|e] w']; reflexivity.
Qed.



Lemma put_document_vectors row (s : Store) :
  vector_document_rel (snd (put_document row s)) = vector_document_rel s.
Proof. unfold put_document. destruct (document_rel s); reflexivity. Qed.

Lemma create_document_node_graph_step doc_id title md :
  respects graph_step (CozoDatabase.create_document_node doc_id title md).
Proof.
  unfold CozoDatabase.create_document_node, CozoDatabase.dumps, utcnow,
    put_document_row, run_put_document.
  frame; apply put_document_vectors.
Qed.


End FacadeFacts.

Section SchemaFacts.
Context {R : Runtime}.



End SchemaFacts.

Section GraphFacts.
Context {R : Runtime}.







End GraphFacts.

Section SearchFacts.
Context {R : Runtime}.

(** The hits the facade builds have no key [distance]. *)
Lemma facade_hits_carry_no_distance query n_results (w : World) hits w' :
  CozoDatabase.search_vector_documents query n_results w = (Ret hits, w') ->
  forall h, In h hits -> CozoDatabase.h_distance h = None.
Proof.
  unfold CozoDatabase.search_vector_documents, try_except, bind, ret.
  destruct (CozoDatabase._verify_or_create_schemas false w) as [[[]|e0] w0];
    [destruct (CozoDatabase._get_text_embedding query w0) as [[emb|e1] w1];
     [destruct (run_vector_search emb n_results w1) as [[[|row rows]|e2] w2]|]|];
    intros H; inversion H; subst; clear H; intros h Hin; try (destruct Hin; fail).
  change (In h (List.map CozoDatabase.hit_of_row (row :: rows))) in Hin.
  apply in_map_iff in Hin as ([[[dist id] content] cell] & <- & _). reflexivity.
Qed.

(** A hit without the key [distance] never becomes a search result. *)
Lemma search_result_of_no_distance h (w : World) :
  CozoDatabase.h_distance h = None ->
  exists e w', DocumentService.search_result_of h w = (Raise e, w').
Proof.
  intros Hd. unfold DocumentService.search_result_of, bind.
  destruct (DocumentService.document_of _ _ _ w) as [[doc|e] w1]; [|eauto].
  unfold DocumentService.score_of_hit. rewrite Hd. unfold raise. eauto.
Qed.

(** X1. The service search raises whenever the vector facade found
    something: every hit the facade builds lacks the key [distance] that
    the service reads. *)
Lemma search_documents_raises_on_facade_hits self query limit (w : World) h hits w1 :
  VectorDatabase.search_documents query limit w = (Ret (h :: hits), w1) ->
  exists e w2, DocumentService.search_documents self query limit w = (Raise e, w2).
Proof.
  intros H. unfold DocumentService.search_documents. unfold bind at 1. rewrite H.
  pose proof (facade_hits_carry_no_distance _ _ _ _ _ H h (or_introl eq_refl)) as Hd.
  cbn [for_each]. unfold bind at 1.
  destruct (search_result_of_no_distance h w1 Hd) as (e & w2 & ->). eauto.
Qed.

End SearchFacts.

(** * Facts about the models and the service *)

Section ModelFacts.
Context {R : Runtime}.

Lemma validate_str_items_fmap (l : list string) :
  validate_str_items (PStr <$> l) = Ret l.
Proof.
  induction l as [|s l IH]; [reflexivity|].
  rewrite fmap_cons. cbn [validate_str_items validate_str]. rewrite IH. reflexivity.
Qed.

Lemma validate_str_inv (v : value) s : validate_str v = Ret s -> v = PStr s.
Proof. destruct v; cbn; intros H; inversion H; reflexivity. Qed.

Lemma validate_str_items_inv (l : list value) ss :
  validate_str_items l = Ret ss -> l = PStr <$> ss.
Proof.
  revert ss. induction l as [|v l IH]; intros ss H; cbn [validate_str_items] in H.
  - inversion H. reflexivity.
  - destruct (validate_str v) as [s|] eqn:Ev; [|discriminate].
    destruct (validate_str_items l) as [rest|] eqn:El; [|discriminate].
    inversion H; subst. rewrite fmap_cons.
    rewrite (validate_str_inv _ _ Ev), (IH rest eq_refl). reflexivity.
Qed.

Lemma validate_str_list_inv (v : value) ss :
  validate_str_list v = Ret ss -> v = PList (PStr <$> ss).
Proof.
  destruct v; cbn; intros H; try discriminate.
  rewrite (validate_str_items_inv _ _ H). reflexivity.
Qed.

Lemma validate_optional_str_inv (v : value) p :
  validate_optional_str v = Ret p -> v = optional_str_value p.
Proof. destruct v; cbn; intros H; inversion H; reflexivity. Qed.

Lemma field_given {A} (kw : dict) key (validate : value -> result A) default v (w : World) :
  kw !! key = Some v -> field kw key validate default w = (Ret (validate v), w).
Proof. unfold field. intros ->. reflexivity. Qed.

(** What a built [DocumentMetadata] says about the keywords it was given. *)
Lemma new_DocumentMetadata_ret_inv (kw : dict) w dm w' :
  new_DocumentMetadata kw w = (Ret dm, w') ->
  (forall v, kw !! "author" = Some v -> validate_str v = Ret (author dm))
  /\ (forall v, kw !! "tags" = Some v -> validate_str_list v = Ret (tags dm))
  /\ (forall v, kw !! "created_at" = Some v -> validate_datetime v = Ret (created_at dm))
  /\ (forall v, kw !! "updated_at" = Some v -> validate_datetime v = Ret (updated_at dm))
  /\ (forall v, kw !! "path" = Some v -> validate_optional_str v = Ret (path dm)).
Proof.
  unfold new_DocumentMetadata. intros H.
  apply bind_ret_inv in H as (a & w1 & Ha & H).
  apply bind_ret_inv in H as (t & w2 & Ht & H).
  apply bind_ret_inv in H as (c & w3 & Hc & H).
  apply bind_ret_inv in H as (u & w4 & Hu & H).
  apply bind_ret_inv in H as (p & w5 & Hp & H).
  destruct a as [a|]; [|discriminate]. destruct t as [t|]; [|discriminate].
  destruct c as [c|]; [|discriminate]. destruct u as [u|]; [|discriminate].
  destruct p as [p|]; [|discriminate].
  inversion H; subst; clear H. cbn [author tags created_at updated_at path].
  repeat split; intros v Hv.
  - rewrite (field_given _ _ _ _ _ _ Hv) in Ha. congruence.
  - rewrite (field_given _ _ _ _ _ _ Hv) in Ht. congruence.
  - rewrite (field_given _ _ _ _ _ _ Hv) in Hc. congruence.
  - rewrite (field_given _ _ _ _ _ _ Hv) in Hu. congruence.
  - rewrite (field_given _ _ _ _ _ _ Hv) in Hp. congruence.
Qed.

Lemma new_DocumentMetadata_only_ticks kw : respects only_ticks (new_DocumentMetadata kw).
Proof. unfold new_DocumentMetadata, field, now. frame. Qed.

Lemma document_of_only_ticks id content stored :
  respects only_ticks (DocumentService.document_of id content stored).
Proof.
  unfold DocumentService.document_of, DocumentService._process_metadata_for_model,
    DocumentService.process_date, DocumentService.getitem, now.
  frame. apply new_DocumentMetadata_only_ticks.
Qed.

(** A date entry leaves the other keys alone and never raises. *)
Lemma process_date_other date_field key (m : dict) (w : World) r w' :
  DocumentService.process_date date_field m w = (r, w') ->
  key <> date_field ->
  exists m', r = Ret m' /\ m' !! key = m !! key.
Proof.
  unfold DocumentService.process_date. intros H Hne.
  destruct (m !! date_field) as [[| s | | |]|];
    try (inversion H; subst; eauto; fail).
  destruct (fromisoformat s).
  - inversion H; subst. eexists. split; [reflexivity|]. apply lookup_insert_ne. congruence.
  - unfold bind, now in H. rewrite tick_run in H. inversion H; subst.
    eexists. split; [reflexivity|]. apply lookup_insert_ne. congruence.
Qed.

(** Stored metadata without a title: the document is never built. *)
Lemma document_of_missing_title id content (m : dict) (w : World) :
  m !! "title" = None ->
  exists w', DocumentService.document_of id content (PDict m) w = (Raise (KeyError "title"), w').
Proof.
  intros Hm. unfold DocumentService.document_of, DocumentService._process_metadata_for_model.
  unfold bind at 1. unfold bind at 1.
  destruct (DocumentService.process_date "created_at" _ w) as [r1 w1] eqn:E1.
  apply process_date_other with (key := "title") in E1 as (m1 & -> & H1); [|discriminate].
  destruct (DocumentService.process_date "updated_at" m1 w1) as [r2 w2] eqn:E2.
  apply process_date_other with (key := "title") in E2 as (m2 & -> & H2); [|discriminate].
  unfold bind, DocumentService.getitem.
  rewrite H2, H1, lookup_alter_ne by discriminate. rewrite Hm. unfold raise. eauto.
Qed.

End ModelFacts.

Section StoredMetadata.
Context {R : Runtime} {L : RuntimeLaws R}.

Lemma stored_lookup_created t dm :
  (CozoDatabase.storage_value <$> DocumentService.stored_metadata t dm) !! "created_at"
  = Some (PStr (isoformat (created_at dm))).
Proof. reflexivity. Qed.

(** Reading back what the service stored restores the dictionary. *)
Lemma process_stored t dm (w : World) :
  DocumentService._process_metadata_for_model
    (PDict (CozoDatabase.storage_value <$> DocumentService.stored_metadata t dm)) w
  = (Ret (DocumentService.stored_metadata t dm), w).
Proof.
  unfold DocumentService._process_metadata_for_model, bind.
  unfold DocumentService.process_date at 1.
  rewrite lookup_alter_ne by discriminate. rewrite stored_lookup_created.
  rewrite fromisoformat_isoformat. unfold ret at 1.
  unfold DocumentService.process_date.
  rewrite lookup_insert_ne by discriminate.
  rewrite lookup_alter_ne by discriminate.
  replace ((CozoDatabase.storage_value <$> DocumentService.stored_metadata t dm) !! "updated_at")
    with (Some (PStr (datetime:=datetime) (isoformat (updated_at dm)))) by reflexivity.
  rewrite fromisoformat_isoformat. unfold ret.
  f_equal. f_equal.
  destruct dm as [a tg c u p]. destruct p; reflexivity.
Qed.

Lemma new_DocumentMetadata_stored t dm (w : World) :
  new_DocumentMetadata (DocumentService.stored_metadata t dm) w = (Ret dm, w).
Proof.
  unfold new_DocumentMetadata, bind, field.
  replace (DocumentService.stored_metadata t dm !! "author")
    with (Some (PStr (datetime:=datetime) (author dm))) by reflexivity.
  replace (DocumentService.stored_metadata t dm !! "tags")
    with (Some (PList (PStr (datetime:=datetime) <$> tags dm))) by reflexivity.
  replace (DocumentService.stored_metadata t dm !! "created_at")
    with (Some (PDatetime (created_at dm))) by reflexivity.
  replace (DocumentService.stored_metadata t dm !! "updated_at")
    with (Some (PDatetime (updated_at dm))) by reflexivity.
  replace (DocumentService.stored_metadata t dm !! "path")
    with (Some (optional_str_value (R:=R) (path dm))) by reflexivity.
  unfold ret. cbn [validate_str validate_str_list validate_datetime].
  rewrite validate_str_items_fmap.
  destruct dm as [a tg c u p]. destruct p; reflexivity.
Qed.

Lemma document_of_stored id content t dm (w : World) :
  DocumentService.document_of id content
    (PDict (CozoDatabase.storage_value <$> DocumentService.stored_metadata t dm)) w
  = (Ret {| doc_id := id; title := t; content := content; metadata := dm |}, w).
Proof.
  unfold DocumentService.document_of.
  unfold bind at 1. rewrite process_stored.
  unfold bind at 1. unfold DocumentService.getitem.
  replace (DocumentService.stored_metadata t dm !! "title")
    with (Some (PStr (datetime:=datetime) t)) by reflexivity.
  unfold ret at 1. unfold bind at 1. rewrite new_DocumentMetadata_stored.
  reflexivity.
Qed.

(** On a store that answers and holds the row the service wrote, the
    service reads the document back. *)
Lemma get_document_holds self id content t title dm w :
  faults w = [] ->
  holds_vector (store w) id content t ->
  json_dumps (PDict (CozoDatabase.storage_value <$> DocumentService.stored_metadata title dm))
  = Some t ->
  DocumentService.get_document self id w
  = (Ret (Some {| doc_id := id; title := title; content := content; metadata := dm |}),
     logged (logged w (store w) (CRun QRelations)) (store w) (CRun (QVectorById id))).
Proof.
  intros Hq (v & row & Hv & Hsel & Hid & Hc & Hm) Ht.
  unfold DocumentService.get_document, VectorDatabase.get_document. unfold bind at 1.
  rewrite (get_vector_document_quiet id w v Hq Hv). rewrite Hsel.
  cbn [CozoDatabase.vd_id CozoDatabase.vd_content CozoDatabase.vd_metadata].
  rewrite Hm, Hid, Hc. unfold CozoDatabase.metadata_of_cell.
  rewrite (json_loads_dumps _ _ Ht).
  unfold bind. rewrite document_of_stored. reflexivity.
Qed.

End StoredMetadata.

Section ServiceFacts.
Context {R : Runtime}.

(** The mirror write into the graph store never raises to its caller and
    leaves the vector relation alone. *)
Lemma mirror_node_run self doc_id title dm (w : World) :
  exists w', DocumentService.mirror_node self doc_id title dm w = (Ret tt, w')
             /\ graph_step w w'.
Proof.
  unfold DocumentService.mirror_node. destruct (DocumentService.graph_db_available self).
  - rewrite try_swallow. eexists. split; [reflexivity|].
    apply respects_run, create_document_node_graph_step.
  - eexists. split; [reflexivity | apply graph_step_refl].
Qed.


(** When the vector [put] raises, creating a document raises, and no
    hand-built script was sent. *)
Lemma create_document_put_fault self title content md (w : World) fs :
  faults w = false :: true :: fs ->
  exists e w',
    DocumentService.create_document self title content md w = (Raise e, w')
    /\ existsb is_manual_put (calls w') = existsb is_manual_put (calls w).
Proof.
  intros Hf. unfold DocumentService.create_document, VectorDatabase.add_document, uuid4, now.
  unfold bind at 1. rewrite tick_run. unfold bind at 1. rewrite tick_run.
  unfold bind at 1. rewrite tick_run. unfold bind at 1.
  match goal with
  | |- context [new_DocumentMetadata ?kw ?w0] =>
      destruct (new_DocumentMetadata kw w0) as [[dm|e] w4] eqn:E;
      apply new_DocumentMetadata_only_ticks in E as (_ & Hf4 & Hc4)
  end; cbn [faults calls] in Hf4, Hc4.
  - unfold bind at 1.
    destruct (add_vector_document_put_fault (uuid4_at (ticks w)) content
                (DocumentService.stored_metadata title dm) w4 fs) as (w' & -> & Hc);
      [congruence|].
    exists (Failure "Failed to add vector document"), w'. split; [reflexivity | congruence].
  - exists e, w4. split; [reflexivity | congruence].
Qed.

(** The same on the update path of the facade: the delete is one call,
    whatever it does, and the raising [put] ends the update. *)
Lemma update_vector_document_put_fault doc_id content (md : dict) (w : World) b fs :
  faults w = b :: false :: true :: fs ->
  exists w',
    CozoDatabase.update_vector_document doc_id content md w
    = (Raise (Failure "Failed to update vector document"), w')
    /\ existsb is_manual_put (calls w') = existsb is_manual_put (calls w).
Proof.
  intros Hf. unfold CozoDatabase.update_vector_document, try_except.
  unfold bind. unfold CozoDatabase.delete_vector_document. rewrite try_swallow.
  destruct (add_vector_document_put_fault doc_id content md
              (snd (run_delete_vector doc_id w)) fs) as (w' & -> & Hc).
  { unfold run_delete_vector, external. rewrite Hf.
    destruct b; cbn [snd logged faults]; rewrite Hf; reflexivity. }
  exists w'. split; [reflexivity|]. rewrite Hc.
  unfold run_delete_vector, external. rewrite Hf.
  destruct b; cbn [snd logged calls]; rewrite existsb_app; cbn; apply orb_false_r.
Qed.



(** A distance of zero, of either sign, is falsy, and [1.0 - 0] is what
    [1.0 - distance] is then. *)
Lemma sub_falsy_distance (d : float) :
  (d =? 0)%float = true -> (1 - 0)%float = (1 - d)%float.
Proof.
  intros H. rewrite FloatAxioms.eqb_spec in H.
  rewrite <- (SF2Prim_Prim2SF d).
  destruct (Prim2SF d) as [s|s| |s m e] eqn:E; try discriminate.
  - destruct s; reflexivity.
  - cbn in H. destruct s; discriminate.
  - cbn in H. destruct s; discriminate.
Qed.

(** X2. On a hit that has the key [distance], the score is
    [1 - distance] for a number and [1.0] for [None]. *)
Lemma score_of_hit_with_distance h (w : World) distance :
  CozoDatabase.h_distance h = Some distance ->
  DocumentService.score_of_hit h w
  = (Ret match distance with Some d => (1 - d)%float | None => 1%float end, w).
Proof.
  intros Hd. unfold DocumentService.score_of_hit. rewrite Hd.
  destruct distance as [d|]; [|reflexivity].
  destruct (d =? 0)%float eqn:E; [|reflexivity].
  rewrite (sub_falsy_distance d E). reflexivity.
Qed.

End ServiceFacts.

(** * The claims *)

Section RoundTrips.
Context {R : Runtime} {L : RuntimeLaws R}.


(** C2. When [update_document] returns a document and the store raises
    nothing afterwards, [get_document] returns that document: it has the
    new title and content and the [created_at] of the document read before
    the update, and its author, tags and path are the ones the new
    metadata gives under those keys, or the prior document's when the key
    is not given. *)
Theorem update_then_get self id title content md w doc w1 :
  DocumentService.update_document self id title content md w = (Ret (Some doc), w1) ->
  faults w1 = [] ->
  let given := match md with None => ∅ | Some m => m end in
  exists prior w0,
    DocumentService.get_document self id w = (Ret (Some prior), w0)
    /\ (exists w2, DocumentService.get_document self id w1 = (Ret (Some doc), w2))
    /\ doc_id doc = id /\ Models.title doc = title /\ Models.content doc = content
    /\ created_at (metadata doc) = created_at (metadata prior)
    /\ match given !! "author" with
       | Some v => v = PStr (author (metadata doc))
       | None => author (metadata doc) = author (metadata prior)
       end
    /\ match given !! "tags" with
       | Some v => v = PList (PStr <$> tags (metadata doc))
       | None => tags (metadata doc) = tags (metadata prior)
       end
    /\ match given !! "path" with
       | Some v => v = optional_str_value (path (metadata doc))
       | None => path (metadata doc) = path (metadata prior)
       end.
Proof.
  intros H Hq given.
  unfold DocumentService.update_document, VectorDatabase.update_document in H.
  apply bind_ret_inv in H as (existing & w0 & Hget & H).
  destruct existing as [prior|]; [|discriminate].
  exists prior, w0. split; [exact Hget|].
  apply bind_ret_inv in H as (u & wa & _ & H).
  apply bind_ret_inv in H as (dm & wb & Hdm & H).
  apply bind_ret_inv in H as ([] & wc & Hupd & H).
  apply bind_ret_inv in H as ([] & wd & Hmir & H).
  inversion H; subst doc wd; clear H.
  cbn [doc_id Models.title Models.content metadata].
  apply new_DocumentMetadata_ret_inv in Hdm as (Ha & Ht & Hc & _ & Hp).
  unfold CozoDatabase.update_vector_document in Hupd.
  apply try_except_raise_ret_inv in Hupd.
  apply bind_ret_inv in Hupd as ([] & we & _ & Hadd).
  apply add_vector_document_ret_inv in Hadd as (t & Hdumps & Hholds).
  destruct (mirror_node_run self id title dm wc) as (w' & Hrun & Hstep).
  rewrite Hrun in Hmir. inversion Hmir; subst w'; clear Hmir Hrun.
  split.
  { eexists. apply get_document_holds with (t := t); auto.
    destruct Hholds as (v & row & Hv & Hrest). exists v, row. split; [|exact Hrest].
    destruct Hstep as [Hvec _]. congruence. }
  split; [reflexivity|]. split; [reflexivity|]. split; [reflexivity|].
  split.
  { specialize (Hc _ eq_refl). cbn in Hc. congruence. }
  specialize (Ha _ eq_refl). specialize (Ht _ eq_refl). specialize (Hp _ eq_refl).
  unfold DocumentService.get_or in Ha, Ht, Hp. fold given in Ha, Ht, Hp.
  split; [|split].
  - destruct (given !! "author") as [v|].
    + apply validate_str_inv; assumption.
    + cbn in Ha. congruence.
  - destruct (given !! "tags") as [v|].
    + apply validate_str_list_inv; assumption.
    + cbn [validate_str_list] in Ht. rewrite validate_str_items_fmap in Ht. congruence.
  - destruct (given !! "path") as [v|].
    + apply validate_optional_str_inv; assumption.
    + destruct (path (metadata prior)); cbn in Hp; congruence.
Qed.

End RoundTrips.

Section Claims.
Context {R : Runtime}.

(** C4, as amended. The two-tier write is on the graph path: when
    [client.put] raises in [create_document_node], the row is sent once
    more through the hand-built script, with the double quotes of the
    title doubled, and the call raises only if that second attempt raises;
    the service swallows that error. On the vector path there is no second
    attempt: when [client.put] raises, [add_vector_document] and
    [update_vector_document] raise at once, no hand-built script is sent,
    and [create_document] raises to its caller. *)
Theorem fallback_is_on_the_graph_path :
  (forall doc_id content (md : dict) (w : World) fs t,
      faults w = false :: true :: fs ->
      json_dumps (PDict (CozoDatabase.storage_value <$> md)) = Some t ->
      exists w',
        CozoDatabase.add_vector_document doc_id content md w
        = (Raise (Failure "Failed to add vector document"), w')
        /\ store w' = store w /\ faults w' = fs
        /\ calls w' = calls w ++
             [CEncode content;
              CPutVector {| v_id := doc_id; v_content := content; v_embedding := encode content;
                            v_metadata := CText t;
                            v_created_at := isoformat (utcnow_at (ticks w));
                            v_updated_at := isoformat (utcnow_at (ticks w)) |}])
  /\ (forall doc_id content (md : dict) (w : World) b fs,
         faults w = b :: false :: true :: fs ->
         exists w',
           CozoDatabase.update_vector_document doc_id content md w
           = (Raise (Failure "Failed to update vector document"), w')
           /\ existsb is_manual_put (calls w') = existsb is_manual_put (calls w))
  /\ (forall self title content md (w : World) fs,
         faults w = false :: true :: fs ->
         exists e w',
           DocumentService.create_document self title content md w = (Raise e, w')
           /\ existsb is_manual_put (calls w') = existsb is_manual_put (calls w))
  /\ (forall doc_id title (md : option dict) (w : World) fs t,
         faults w = true :: fs ->
         json_dumps (PDict (CozoDatabase.storage_value <$> CozoDatabase.or_empty md)) = Some t ->
         let now := isoformat (utcnow_at (ticks w)) in
         let row := {| d_id := doc_id; d_title := title; d_content := "";
                       d_created_at := now; d_updated_at := now;
                       d_metadata :=
                         CObj (CozoDatabase.storage_value <$> CozoDatabase.or_empty md) |} in
         let failed := logged {| store := store w; faults := faults w; calls := calls w;
                                 ticks := S (ticks w) |} (store w) (CPutDocument row) in
         let retry := run_put_document doc_id (CozoDatabase.escape_quotes title) now t failed in
         CozoDatabase.create_document_node doc_id title md w
         = (match fst retry with
            | Ret _ => Ret tt
            | Raise _ => Raise (Failure "Error creating document")
            end, snd retry))
  /\ (forall self doc_id title dm (w : World),
         exists w', DocumentService.mirror_node self doc_id title dm w = (Ret tt, w')).
Proof.
  split; [exact add_vector_document_put_raises|].
  split; [exact update_vector_document_put_fault|].
  split; [exact create_document_put_fault|].
  split; [exact create_document_node_retry|].
  intros self doc_id title dm w.
  destruct (mirror_node_run self doc_id title dm w) as (w' & H & _). eauto.
Qed.

(** C5. The facade search returns for every query, limit and world: it
    never raises. When the schema check or the embedding raises, it
    returns the empty list; when the search call raises, it returns the
    empty list; when the call answers, it returns one hit per row, so the
    empty list for no rows. *)
Theorem search_never_raises query n_results (w : World) :
  (exists hits w', CozoDatabase.search_vector_documents query n_results w = (Ret hits, w'))
  /\ (forall e w',
         (CozoDatabase._verify_or_create_schemas false ;;;
          CozoDatabase._get_text_embedding query) w = (Raise e, w') ->
         CozoDatabase.search_vector_documents query n_results w = (Ret [], w'))
  /\ (forall query_embedding wa r wb,
         (CozoDatabase._verify_or_create_schemas false ;;;
          CozoDatabase._get_text_embedding query) w = (Ret query_embedding, wa) ->
         run_vector_search query_embedding n_results wa = (r, wb) ->
         CozoDatabase.search_vector_documents query n_results w
         = (Ret match r with
                | Ret rows => List.map CozoDatabase.hit_of_row rows
                | Raise _ => []
                end, wb)).
Proof.
  unfold CozoDatabase.search_vector_documents, try_except, bind, ret.
  destruct (CozoDatabase._verify_or_create_schemas false w) as [[[]|e0] w0].
  - destruct (CozoDatabase._get_text_embedding query w0) as [[emb|e1] w1].
    + split; [|split].
      * destruct (run_vector_search emb n_results w1) as [[[|row rows]|e2] w2]; eauto.
      * discriminate.
      * intros query_embedding wa r wb H Hrun. inversion H; subst; clear H.
        rewrite Hrun. destruct r as [[|row rows]|e2]; reflexivity.
    + split; [eauto|]. split.
      * intros e w' H. inversion H; subst. reflexivity.
      * discriminate.
  - split; [eauto|]. split.
    + intros e w' H. inversion H; subst. reflexivity.
    + discriminate.
Qed.



End Claims.

Section GraphClaims.
Context {R : Runtime}.



(** C10. When the vector facade hands the service a record whose metadata
    dictionary has no key [title], [get_document] raises [KeyError] for
    that key: it neither returns [None] nor a document. In a search, such
    a hit raises the same [KeyError] when it is converted, so the search
    never returns a list, and it raises that [KeyError] whenever the hits
    before it were converted. *)
Theorem missing_title_raises_KeyError :
  (forall self doc_id (w : World) vd w1 m,
      VectorDatabase.get_document doc_id w = (Ret (Some vd), w1) ->
      CozoDatabase.vd_metadata vd = PDict m ->
      m !! "title" = None ->
      exists w2, DocumentService.get_document self doc_id w = (Raise (KeyError "title"), w2))
  /\ (forall self query limit (w : World) pre h post w1 m,
         VectorDatabase.search_documents query limit w = (Ret (pre ++ h :: post), w1) ->
         CozoDatabase.h_metadata h = PDict m ->
         m !! "title" = None ->
         (exists w', DocumentService.search_result_of h w1 = (Raise (KeyError "title"), w'))
         /\ (exists e w2, DocumentService.search_documents self query limit w = (Raise e, w2))
         /\ (forall results w2,
                for_each DocumentService.search_result_of pre w1 = (Ret results, w2) ->
                exists w3, DocumentService.search_documents self query limit w
                           = (Raise (KeyError "title"), w3))).
Proof.
  split.
  - intros self doc_id w vd w1 m Hget Hvd Hm.
    unfold DocumentService.get_document. unfold bind at 1. rewrite Hget.
    rewrite Hvd. unfold bind.
    destruct (document_of_missing_title (CozoDatabase.vd_id vd) (CozoDatabase.vd_content vd) m w1 Hm)
      as (w2 & ->). eauto.
  - intros self query limit w pre h post w1 m Hsearch Hh Hm.
    assert (Hhit : forall w0, exists w', DocumentService.search_result_of h w0
                                         = (Raise (KeyError "title"), w')).
    { intros w0. unfold DocumentService.search_result_of, bind. rewrite Hh.
      destruct (document_of_missing_title (CozoDatabase.h_id h) (CozoDatabase.h_content h) m w0 Hm)
        as (w' & ->). eauto. }
    split; [apply Hhit|].
    unfold DocumentService.search_documents, bind. rewrite Hsearch. split.
    + apply for_each_app_never_returns. intros w0. destruct (Hhit w0) as (w' & ->). eauto.
    + intros results w2 Hpre. destruct (Hhit w2) as (w3 & Hraise).
      exists w3. eapply for_each_app_raise; eassumption.
Qed.

End GraphClaims.

(** * The claims on the sample runtime *)

Lemma count_plus_signs_plus_signs n :
  Sample.count_plus_signs (Sample.plus_signs n) = Some n.
Proof. induction n as [|n IH]; [reflexivity|]. cbn. rewrite IH. reflexivity. Qed.

Lemma sample_runtime_laws : RuntimeLaws Sample.runtime.
Proof.
  split.
  - intros d. cbn. apply count_plus_signs_plus_signs.
  - intros v t H. cbn in *. inversion H. reflexivity.
Qed.

(** C3. On the hits the vector facade builds, which have no key
    [distance], the service search does not produce a score of [1.0]: it
    raises [KeyError] for that key. Here the sample document is created and
    then searched for. *)
Theorem search_after_create_raises :
  fst (DocumentService.search_documents (R := Sample.runtime) Sample.service "q" 5
         Sample.after_create)
  = Raise (KeyError "distance").
Proof. vm_compute. reflexivity. Qed.


Lemma update_then_get_witness :
  DocumentService.update_document (R := Sample.runtime) Sample.service "d" "T2" "bye"
    (Some Sample.author_me) Sample.after_create
  = (Ret (Some Sample.updated_document), Sample.after_update)
  /\ faults Sample.after_update = []
  /\ exists w2,
       DocumentService.get_document (R := Sample.runtime) Sample.service "d" Sample.after_update
       = (Ret (Some Sample.updated_document), w2).
Proof.
  assert (H1 : DocumentService.update_document (R := Sample.runtime) Sample.service "d" "T2" "bye"
                 (Some Sample.author_me) Sample.after_create
               = (Ret (Some Sample.updated_document), Sample.after_update))
    by (vm_compute; reflexivity).
  assert (H2 : faults Sample.after_update = []) by (vm_compute; reflexivity).
  split; [exact H1|]. split; [exact H2|].
  destruct (update_then_get (L := sample_runtime_laws) _ _ _ _ _ _ _ _ H1 H2)
    as (prior & w0 & _ & Hget & _).
  exact Hget.
Defined.

Lemma vector_write_is_not_retried :
  fst Sample.failed_create = Raise (Failure "Failed to add vector document")
  /\ existsb is_manual_put (calls (snd Sample.failed_create)) = false
  /\ length (calls (snd Sample.failed_create)) = 2
  /\ faults (snd Sample.failed_create) = [].
Proof. vm_compute. repeat split; reflexivity. Qed.

Lemma fallback_witness :
  faults (Sample.world_with Sample.fresh_store [true]) = [true]
  /\ fst (CozoDatabase.create_document_node (R := Sample.runtime) "n" Sample.quoted_title None
            (Sample.world_with Sample.fresh_store [true])) = Ret tt
  /\ existsb is_manual_put
       (calls (snd (CozoDatabase.create_document_node (R := Sample.runtime) "n"
                      Sample.quoted_title None
                      (Sample.world_with Sample.fresh_store [true])))) = true.
Proof.
  split; [reflexivity|].
  rewrite (proj1 (proj2 (proj2 (proj2 (fallback_is_on_the_graph_path (R := Sample.runtime)))))
             "n" Sample.quoted_title None (Sample.world_with Sample.fresh_store [true]) []
             (Some (PDict ∅)) eq_refl eq_refl).
  vm_compute. split; reflexivity.
Defined.

Lemma search_never_raises_witness :
  exists hits w',
    CozoDatabase.search_vector_documents (R := Sample.runtime) "q" 5 Sample.after_create
    = (Ret hits, w')
    /\ length hits = 1.
Proof.
  pose (pre := (CozoDatabase._verify_or_create_schemas (R := Sample.runtime) false ;;;
                CozoDatabase._get_text_embedding "q") Sample.after_create).
  pose (found := run_vector_search (R := Sample.runtime) [1%float; 0%float] 5 (snd pre)).
  assert (H1 : (CozoDatabase._verify_or_create_schemas (R := Sample.runtime) false ;;;
                CozoDatabase._get_text_embedding "q") Sample.after_create
               = (Ret [1%float; 0%float], snd pre)) by (vm_compute; reflexivity).
  assert (H2 : run_vector_search (R := Sample.runtime) [1%float; 0%float] 5 (snd pre)
               = (fst found, snd found)) by apply surjective_pairing.
  eexists _, _. split.
  - exact (proj2 (proj2 (search_never_raises (R := Sample.runtime) "q" 5 Sample.after_create))
             _ _ _ _ H1 H2).
  - vm_compute. reflexivity.
Defined.





Lemma missing_title_raises_KeyError_witness :
  VectorDatabase.get_document (R := Sample.runtime) "x" (Sample.world_with Sample.broken_store [])
  = (Ret (Some {| CozoDatabase.vd_id := "x"; CozoDatabase.vd_content := "c";
                  CozoDatabase.vd_metadata := PDict ∅ |}),
     snd (VectorDatabase.get_document (R := Sample.runtime) "x"
            (Sample.world_with Sample.broken_store [])))
  /\ exists w2,
       DocumentService.get_document (R := Sample.runtime) Sample.service "x"
         (Sample.world_with Sample.broken_store [])
       = (Raise (KeyError "title"), w2).
Proof.
  assert (H1 : VectorDatabase.get_document (R := Sample.runtime) "x"
                 (Sample.world_with Sample.broken_store [])
               = (Ret (Some {| CozoDatabase.vd_id := "x"; CozoDatabase.vd_content := "c";
                               CozoDatabase.vd_metadata := PDict ∅ |}),
                  snd (VectorDatabase.get_document (R := Sample.runtime) "x"
                         (Sample.world_with Sample.broken_store []))))
    by (vm_compute; reflexivity).
  split; [exact H1|].
  exact (proj1 (missing_title_raises_KeyError (R := Sample.runtime)) Sample.service _ _ _ _ ∅
           H1 eq_refl eq_refl).
Defined.

Lemma search_documents_raises_on_facade_hits_witness :
  exists e w2,
    DocumentService.search_documents (R := Sample.runtime) Sample.service "q" 5
      Sample.after_create = (Raise e, w2).
Proof.
  assert (H : exists h hits w1,
             VectorDatabase.search_documents (R := Sample.runtime) "q" 5 Sample.after_create
             = (Ret (h :: hits), w1))
    by (vm_compute; eexists _, _, _; reflexivity).
  destruct H as (h & hits & w1 & H).
  exact (search_documents_raises_on_facade_hits Sample.service _ _ _ _ _ _ H).
Defined.

Lemma score_of_hit_with_distance_witness :
  DocumentService.score_of_hit (R := Sample.runtime)
    {| CozoDatabase.h_id := "d"; CozoDatabase.h_content := "hello";
       CozoDatabase.h_metadata := PDict ∅; CozoDatabase.h_score := 0.75%float;
       CozoDatabase.h_distance := Some (Some 0.25%float) |} Sample.start
  = (Ret 0.75%float, Sample.start).
Proof.
  apply (score_of_hit_with_distance (R := Sample.runtime) _ Sample.start (Some 0.25%float)).
  reflexivity.
Defined.

(** * Facts about [Document.to_dict] and [Document.from_dict] *)

Section DictFacts.
Context {R : Runtime}.

Lemma new_DocumentMetadata_dict dm (w : World) :
  new_DocumentMetadata (DocumentMetadata_dict dm) w = (Ret dm, w).
Proof.
  unfold new_DocumentMetadata, bind, field.
  replace (DocumentMetadata_dict dm !! "author")
    with (Some (PStr (datetime:=datetime) (author dm))) by reflexivity.
  replace (DocumentMetadata_dict dm !! "tags")
    with (Some (PList (PStr (datetime:=datetime) <$> tags dm))) by reflexivity.
  replace (DocumentMetadata_dict dm !! "created_at")
    with (Some (PDatetime (created_at dm))) by reflexivity.
  replace (DocumentMetadata_dict dm !! "updated_at")
    with (Some (PDatetime (updated_at dm))) by reflexivity.
  replace (DocumentMetadata_dict dm !! "path")
    with (Some (optional_str_value (R:=R) (path dm))) by reflexivity.
  unfold ret. cbn [validate_str validate_str_list validate_datetime].
  rewrite validate_str_items_fmap.
  destruct dm as [a tg c u p]. destruct p; reflexivity.
Qed.

(** The metadata model built from no keywords: the defaults, with the
    clock read once for each of the two dates. *)
Lemma new_DocumentMetadata_empty (w : World) :
  new_DocumentMetadata ∅ w
  = (Ret {| author := ""; tags := []; created_at := now_at (ticks w);
            updated_at := now_at (S (ticks w)); path := None |},
     {| store := store w; faults := faults w; calls := calls w; ticks := S (S (ticks w)) |}).
Proof. reflexivity. Qed.

(** X3. [Document.from_dict] undoes [Document.to_dict]: the document comes
    back as it was, and no clock is read for it. *)
Theorem from_dict_to_dict (d : Document) (w : World) :
  DocumentDict.from_dict (DocumentDict.to_dict d) w = (Ret d, w).
Proof.
  unfold DocumentDict.from_dict, DocumentService.get_or, DocumentService.getitem.
  replace (DocumentDict.to_dict d !! "metadata")
    with (Some (PDict (DocumentMetadata_dict (metadata d)))) by reflexivity.
  replace (DocumentDict.to_dict d !! "id")
    with (Some (PStr (datetime:=datetime) (doc_id d))) by reflexivity.
  replace (DocumentDict.to_dict d !! "title")
    with (Some (PStr (datetime:=datetime) (title d))) by reflexivity.
  replace (DocumentDict.to_dict d !! "content")
    with (Some (PStr (datetime:=datetime) (content d))) by reflexivity.
  unfold bind. rewrite new_DocumentMetadata_dict. unfold ret. cbn [validate_str].
  destruct d; reflexivity.
Qed.

(** X4. A dictionary without a metadata entry gives a document with the
    default metadata: no author, no tags, no path, and the two dates read
    off the clock one after the other. *)
Theorem from_dict_without_metadata (data : dict) (w : World) id title content :
  data !! "metadata" = None ->
  data !! "id" = Some (PStr id) ->
  data !! "title" = Some (PStr title) ->
  data !! "content" = Some (PStr content) ->
  DocumentDict.from_dict data w
  = (Ret {| doc_id := id; title := title; content := content;
            metadata := {| author := ""; tags := []; created_at := now_at (ticks w);
                           updated_at := now_at (S (ticks w)); path := None |} |},
     {| store := store w; faults := faults w; calls := calls w; ticks := S (S (ticks w)) |}).
Proof.
  intros Hm Hi Ht Hc.
  unfold DocumentDict.from_dict, DocumentService.get_or, DocumentService.getitem.
  rewrite Hm, Hi, Ht, Hc. unfold bind at 1. unfold bind at 1.
  rewrite new_DocumentMetadata_empty. reflexivity.
Qed.


End DictFacts.

(** * Facts about the two metadata conversions *)

Section MetadataFacts.
Context {R : Runtime}.

Lemma storage_value_no_datetime (v : value) d : CozoDatabase.storage_value v <> PDatetime d.
Proof. destruct v; discriminate. Qed.

Lemma storage_value_idempotent (v : value) :
  CozoDatabase.storage_value (CozoDatabase.storage_value v) = CozoDatabase.storage_value v.
Proof. destruct v; reflexivity. Qed.

(** X6. What [_process_metadata_for_storage] does to a dictionary: the
    keys stay, no entry is a datetime afterwards, a datetime entry became
    its ISO string, every other entry (a list that holds datetimes
    included) is as it was, and a second pass changes nothing. *)
Theorem process_metadata_for_storage_invariants (m : dict) :
  let stored := CozoDatabase._process_metadata_for_storage (Some m) in
  (forall k, is_Some (stored !! k) <-> is_Some (m !! k))
  /\ (forall k d, stored !! k <> Some (PDatetime d))
  /\ (forall k d, m !! k = Some (PDatetime d) -> stored !! k = Some (PStr (isoformat d)))
  /\ (forall k v, m !! k = Some v -> (forall d, v <> PDatetime d) -> stored !! k = Some v)
  /\ CozoDatabase._process_metadata_for_storage (Some stored) = stored.
Proof.
  cbn zeta. unfold CozoDatabase._process_metadata_for_storage.
  split; [|split; [|split; [|split]]].
  - intros k. rewrite lookup_fmap. apply fmap_is_Some.
  - intros k d. rewrite lookup_fmap.
    destruct (m !! k) as [v|]; cbn; [|discriminate].
    intros H. inversion H as [H1]. exact (storage_value_no_datetime v d H1).
  - intros k d H. rewrite lookup_fmap, H. reflexivity.
  - intros k v H Hv. rewrite lookup_fmap, H. cbn. f_equal.
    destruct v; try reflexivity. exfalso. exact (Hv d eq_refl).
  - rewrite <- map_fmap_compose. apply map_fmap_ext.
    intros k v _. apply storage_value_idempotent.
Qed.

Lemma process_tags_no_str (v : value) s : DocumentService.process_tags v <> PStr s.
Proof. destruct v as [|t| | |]; try discriminate. destruct t; discriminate. Qed.

(** What one date step does: it returns, reads at most the clock, keeps
    the keys, leaves the other entries alone and leaves no string under
    its own key. *)
Lemma process_date_run date_field (m : dict) (w : World) :
  exists p w',
    DocumentService.process_date date_field m w = (Ret p, w')
    /\ only_ticks w w'
    /\ (forall k, is_Some (p !! k) <-> is_Some (m !! k))
    /\ (forall k, k <> date_field -> p !! k = m !! k)
    /\ (forall s, p !! date_field <> Some (PStr s)).
Proof.
  unfold DocumentService.process_date.
  destruct (m !! date_field) as [v|] eqn:E.
  - destruct v as [|s| | |];
      try (exists m, w; split; [reflexivity|]; split; [apply only_ticks_refl|];
           split; [tauto|]; split; [auto|]; intros s'; rewrite E; discriminate).
    assert (Hkeys : forall d k, is_Some (<[date_field := PDatetime d]> m !! k) <-> is_Some (m !! k)).
    { intros d k. destruct (decide (k = date_field)) as [->|Hne].
      - rewrite lookup_insert_eq, E. split; eauto.
      - rewrite lookup_insert_ne by congruence. tauto. }
    destruct (fromisoformat s) as [d|].
    + exists (<[date_field := PDatetime d]> m), w.
      split; [reflexivity|]. split; [apply only_ticks_refl|]. split; [apply Hkeys|].
      split; [intros k Hk; apply lookup_insert_ne; congruence|].
      intros s'. rewrite lookup_insert_eq. discriminate.
    + unfold bind, now. rewrite tick_run. eexists _, _.
      split; [reflexivity|]. split; [repeat split|]. split; [apply Hkeys|].
      split; [intros k Hk; apply lookup_insert_ne; congruence|].
      intros s'. rewrite lookup_insert_eq. discriminate.
  - exists m, w. split; [reflexivity|]. split; [apply only_ticks_refl|].
    split; [tauto|]. split; [auto|]. intros s'. rewrite E. discriminate.
Qed.

(** X7. [_process_metadata_for_model] on a dictionary never raises, reads
    nothing but the clock, keeps the keys, leaves every entry other than
    [tags], [created_at] and [updated_at] as it was, and leaves no string
    under these three keys. *)
Theorem process_metadata_for_model_on_dict (m : dict) (w : World) :
  exists p w',
    DocumentService._process_metadata_for_model (PDict m) w = (Ret p, w')
    /\ only_ticks w w'
    /\ (forall k, is_Some (p !! k) <-> is_Some (m !! k))
    /\ (forall k, k <> "tags" -> k <> "created_at" -> k <> "updated_at" -> p !! k = m !! k)
    /\ (forall k s, In k ["tags"; "created_at"; "updated_at"] -> p !! k <> Some (PStr s)).
Proof.
  unfold DocumentService._process_metadata_for_model.
  destruct (process_date_run "created_at" (alter DocumentService.process_tags "tags" m) w)
    as (p1 & w1 & H1 & T1 & K1 & O1 & S1).
  destruct (process_date_run "updated_at" p1 w1) as (p2 & w2 & H2 & T2 & K2 & O2 & S2).
  exists p2, w2. unfold bind. rewrite H1, H2.
  split; [reflexivity|]. split; [eapply only_ticks_trans; eassumption|].
  assert (Halter : forall k, is_Some (alter DocumentService.process_tags "tags" m !! k)
                             <-> is_Some (m !! k)).
  { intros k. destruct (decide (k = "tags")) as [->|Hne].
    - rewrite lookup_alter_eq. apply fmap_is_Some.
    - rewrite lookup_alter_ne by congruence. tauto. }
  split; [intros k; rewrite K2, K1; apply Halter|].
  split.
  - intros k Ht Hc Hu. rewrite O2, O1 by assumption. apply lookup_alter_ne. congruence.
  - intros k s [<-|[<-|[<-|[]]]].
    + rewrite O2, O1 by discriminate. rewrite lookup_alter_eq.
      destruct (m !! "tags") as [v|]; cbn; [|discriminate].
      intros H. inversion H as [H0]. exact (process_tags_no_str v s H0).
    + rewrite O2 by discriminate. apply S1.
    + apply S2.
Qed.

End MetadataFacts.

(** * Facts about reading and replacing a vector document *)

Section ReadFacts.
Context {R : Runtime}.

(** X8. [get_vector_document] never raises, and what it returns is a row
    of the vector relation with the id that was asked for. *)
Theorem get_vector_document_returns_a_stored_row doc_id (w : World) :
  exists found w',
    CozoDatabase.get_vector_document doc_id w = (Ret found, w')
    /\ forall d, found = Some d ->
       exists v row,
         vector_document_rel (store w') = Some v /\ In row (vec_rows v)
         /\ v_id row = doc_id
         /\ d = {| CozoDatabase.vd_id := doc_id;
                   CozoDatabase.vd_content := v_content row;
                   CozoDatabase.vd_metadata := CozoDatabase.metadata_of_cell (v_metadata row) |}.
Proof.
  unfold CozoDatabase.get_vector_document.
  unfold try_except at 1. unfold bind at 1. rewrite try_swallow.
  match goal with |- context [snd (?c w)] => generalize (snd (c w)) end.
  intros w1. unfold bind, run_vector_by_id, external.
  destruct (faults w1) as [|[] fs] eqn:Hf.
  - unfold select_vector.
    destruct (vector_document_rel (store w1)) as [v|] eqn:Hv; cbn [fst snd].
    + destruct (List.filter (fun r => v_id r =? doc_id) (vec_rows v)) as [|r rest] eqn:Hsel;
        cbn [List.map].
      * eexists _, _. split; [reflexivity|]. discriminate.
      * eexists _, _. split; [reflexivity|]. intros d Hd. inversion Hd; subst d; clear Hd.
        assert (Hin : In r (List.filter (fun r => v_id r =? doc_id) (vec_rows v)))
          by (rewrite Hsel; left; reflexivity).
        apply List.filter_In in Hin as [Hin Hid]. apply String.eqb_eq in Hid.
        exists v, r. cbn [store logged]. rewrite Hid. auto.
    + eexists _, _. split; [reflexivity|]. discriminate.
  - eexists _, _. split; [reflexivity|]. discriminate.
  - unfold select_vector.
    destruct (vector_document_rel (store w1)) as [v|] eqn:Hv; cbn [fst snd].
    + destruct (List.filter (fun r => v_id r =? doc_id) (vec_rows v)) as [|r rest] eqn:Hsel;
        cbn [List.map].
      * eexists _, _. split; [reflexivity|]. discriminate.
      * eexists _, _. split; [reflexivity|]. intros d Hd. inversion Hd; subst d; clear Hd.
        assert (Hin : In r (List.filter (fun r => v_id r =? doc_id) (vec_rows v)))
          by (rewrite Hsel; left; reflexivity).
        apply List.filter_In in Hin as [Hin Hid]. apply String.eqb_eq in Hid.
        exists v, r. cbn [store logged]. rewrite Hid. auto.
    + eexists _, _. split; [reflexivity|]. discriminate.
Qed.

Lemma get_vector_document_total doc_id (w : World) :
  exists found w', CozoDatabase.get_vector_document doc_id w = (Ret found, w').
Proof.
  unfold CozoDatabase.get_vector_document, try_except at 1.
  match goal with |- context [match ?c w with _ => _ end] => destruct (c w) as [[a|e] w1] end;
    eexists _, _; reflexivity.
Qed.

Lemma new_DocumentMetadata_raise_inv (kw : dict) (w : World) e w' :
  new_DocumentMetadata kw w = (Raise e, w') -> e = ValidationError.
Proof.
  unfold new_DocumentMetadata, field, bind, ret, raise, now.
  destruct (kw !! "author"), (kw !! "tags"), (kw !! "created_at"), (kw !! "updated_at"),
    (kw !! "path"); rewrite ?tick_run;
    repeat match goal with
           | |- context [match ?x with Ret _ => _ | Raise _ => _ end] => destruct x
           end;
    intros H; inversion H; reflexivity.
Qed.

(** The errors of building a document from a stored record. *)
Lemma document_of_raise_inv id content stored (w : World) e w' :
  DocumentService.document_of id content stored w = (Raise e, w') -> malformed_record e.
Proof.
  unfold malformed_record, DocumentService.document_of. unfold bind at 1.
  destruct (DocumentService._process_metadata_for_model stored w) as [[p|e0] w1] eqn:Hp.
  - unfold bind at 1. unfold DocumentService.getitem.
    destruct (p !! "title") as [tv|]; [|intros H; inversion H; auto].
    unfold ret at 1. unfold bind at 1.
    destruct (new_DocumentMetadata p w1) as [[dm|e1] w2] eqn:Hn.
    + unfold bind, lift. destruct (validate_str tv) eqn:Hv.
      * discriminate.
      * destruct tv; inversion Hv; subst; intros H; inversion H; auto.
    + intros H; inversion H; subst. apply new_DocumentMetadata_raise_inv in Hn. auto.
  - intros H; inversion H; subst; clear H.
    unfold DocumentService._process_metadata_for_model in Hp.
    destruct stored as [| | |m|]; try (inversion Hp; auto; fail).
    exfalso. unfold bind in Hp.
    destruct (DocumentService.process_date "created_at" _ w) as [r1 wa] eqn:E1.
    apply process_date_other with (key := "title") in E1 as (m1 & -> & _); [|discriminate].
    destruct (DocumentService.process_date "updated_at" m1 wa) as [r2 wb] eqn:E2.
    apply process_date_other with (key := "title") in E2 as (m2 & -> & _); [|discriminate].
    discriminate.
Qed.

(** The same for the service reader, for which a failure of the store
    reads as a document that is not there. *)
Lemma get_document_raise_inv self doc_id (w : World) e w' :
  DocumentService.get_document self doc_id w = (Raise e, w') -> malformed_record e.
Proof.
  unfold DocumentService.get_document, VectorDatabase.get_document. unfold bind at 1.
  destruct (get_vector_document_total doc_id w) as (found & w1 & ->).
  destruct found as [d|]; [|discriminate].
  unfold bind.
  destruct (DocumentService.document_of _ _ _ w1) as [[doc|e1] w2] eqn:Hd; [discriminate|].
  intros H; inversion H; subst. eapply document_of_raise_inv; eassumption.
Qed.

Lemma collect_documents_raise_inv self ids : forall (w : World) e w',
  DocumentService.collect_documents self ids w = (Raise e, w') -> malformed_record e.
Proof.
  induction ids as [|id ids IH]; intros w e w'; cbn [DocumentService.collect_documents].
  - discriminate.
  - unfold bind at 1.
    destruct (DocumentService.get_document self id w) as [[doc|e1] w1] eqn:Hg.
    + unfold bind.
      destruct (DocumentService.collect_documents self ids w1) as [[docs|e2] w2] eqn:Hc.
      * discriminate.
      * intros H; inversion H; subst. eapply IH; eassumption.
    + intros H; inversion H; subst. eapply get_document_raise_inv; eassumption.
Qed.

Lemma for_each_relationship_of_raise_inv edges : forall (w : World) e w',
  for_each DocumentService.relationship_of edges w = (Raise e, w') -> malformed_record e.
Proof.
  induction edges as [|x xs IH]; intros w e w'; cbn [for_each].
  - discriminate.
  - unfold bind at 1. unfold DocumentService.relationship_of at 1. unfold bind at 1, lift.
    destruct (validate_dict (CozoDatabase.ge_properties x)) as [props|e0] eqn:Hv.
    + unfold ret at 1. unfold bind.
      destruct (for_each DocumentService.relationship_of xs w) as [[ys|e2] w2] eqn:Hc.
      * discriminate.
      * intros H; inversion H; subst. eapply IH; eassumption.
    + intros H; inversion H; subst.
      destruct (CozoDatabase.ge_properties x); inversion Hv; right; left; reflexivity.
Qed.

(** X9. A failure of the store never reaches the caller of the reading
    and deleting operations of the service, nor of [create_relationship]:
    what they can raise is about the shape of a stored record only. *)
Theorem store_failures_do_not_reach_readers self (w : World) e w' :
  (forall doc_id, DocumentService.get_document self doc_id w = (Raise e, w') -> malformed_record e)
  /\ (forall doc_id, DocumentService.delete_document self doc_id w = (Raise e, w') ->
                     malformed_record e)
  /\ (forall source target rel_type props,
         DocumentService.create_relationship self source target rel_type props w = (Raise e, w') ->
         malformed_record e)
  /\ (forall doc_id rel_type,
         DocumentService.get_related_documents self doc_id rel_type w = (Raise e, w') ->
         malformed_record e)
  /\ (forall depth, DocumentService.get_document_graph self depth w = (Raise e, w') ->
                    malformed_record e).
Proof.
  split; [|split; [|split; [|split]]].
  - intros doc_id. apply get_document_raise_inv.
  - intros doc_id. unfold DocumentService.delete_document. unfold bind at 1.
    destruct (DocumentService.get_document self doc_id w) as [[[d|]|e1] w1] eqn:Hg.
    + unfold VectorDatabase.delete_document, CozoDatabase.delete_vector_document.
      unfold bind at 1. rewrite try_swallow. unfold bind.
      destruct (DocumentService.graph_db_available self); [rewrite try_swallow|]; discriminate.
    + discriminate.
    + intros H; inversion H; subst. eapply get_document_raise_inv; eassumption.
  - intros source target rel_type props. unfold DocumentService.create_relationship.
    unfold bind at 1.
    destruct (DocumentService.get_document self source w) as [[sd|e1] w1] eqn:Hs;
      [|intros H; inversion H; subst; eapply get_document_raise_inv; eassumption].
    unfold bind at 1.
    destruct (DocumentService.get_document self target w1) as [[td|e2] w2] eqn:Ht;
      [|intros H; inversion H; subst; eapply get_document_raise_inv; eassumption].
    destruct sd, td; try discriminate.
    unfold bind. destruct (DocumentService.graph_db_available self);
      [rewrite try_swallow|]; discriminate.
  - intros doc_id rel_type. unfold DocumentService.get_related_documents.
    destruct (DocumentService.graph_db_available self); [|discriminate].
    unfold bind at 1. unfold try_except.
    destruct (bind (CozoDatabase.get_related_documents doc_id rel_type) _ w) as [[r|e1] w1].
    + destruct r as [related|]; [|discriminate]. apply collect_documents_raise_inv.
    + discriminate.
  - intros depth. unfold DocumentService.get_document_graph.
    destruct (DocumentService.graph_db_available self); [|discriminate].
    unfold bind at 1. unfold try_except.
    destruct (bind (CozoDatabase.get_document_graph depth) _ w) as [[g|e1] w1].
    + destruct g as [[node_rows edge_rows]|]; [|discriminate].
      unfold bind at 1.
      destruct (DocumentService.collect_documents self _ w1) as [[docs|e2] w2] eqn:Hc;
        [|intros H; inversion H; subst; eapply collect_documents_raise_inv; eassumption].
      unfold bind.
      destruct (for_each DocumentService.relationship_of edge_rows w2) as [[rs|e3] w3] eqn:Hr;
        [discriminate|].
      intros H; inversion H; subst. eapply for_each_relationship_of_raise_inv; eassumption.
    + discriminate.
Qed.



End ReadFacts.

(** * Facts about the graph write path *)

Section RelationshipFacts.
Context {R : Runtime}.

(** X11. Doubling the double quotes loses nothing: different strings stay
    different, a string without double quotes is unchanged, and the result
    is longer by the number of double quotes. *)
Theorem escape_quotes_properties :
  (forall s1 s2, CozoDatabase.escape_quotes s1 = CozoDatabase.escape_quotes s2 -> s1 = s2)
  /\ (forall s, count_quotes s = 0 -> CozoDatabase.escape_quotes s = s)
  /\ (forall s, String.length (CozoDatabase.escape_quotes s) = String.length s + count_quotes s).
Proof.
  split; [|split].
  - induction s1 as [|c1 s1 IH]; intros [|c2 s2]; cbn [CozoDatabase.escape_quotes].
    + reflexivity.
    + destruct (Ascii.eqb c2 CozoDatabase.dquote); discriminate.
    + destruct (Ascii.eqb c1 CozoDatabase.dquote); discriminate.
    + destruct (Ascii.eqb c1 CozoDatabase.dquote) eqn:E1,
               (Ascii.eqb c2 CozoDatabase.dquote) eqn:E2; intros H.
      * apply Ascii.eqb_eq in E1, E2. subst. inversion H as [H1]. rewrite (IH _ H1). reflexivity.
      * inversion H as [[H1 H2]]. subst c2. rewrite Ascii.eqb_refl in E2. discriminate.
      * inversion H as [[H1 H2]]. subst c1. rewrite Ascii.eqb_refl in E1. discriminate.
      * inversion H as [[H1 H2]]. rewrite (IH _ H2). reflexivity.
  - induction s as [|c s IH]; cbn [CozoDatabase.escape_quotes count_quotes]; [reflexivity|].
    destruct (Ascii.eqb c CozoDatabase.dquote); [discriminate|].
    intros H. rewrite IH by exact H. reflexivity.
  - induction s as [|c s IH]; cbn [CozoDatabase.escape_quotes count_quotes]; [reflexivity|].
    destruct (Ascii.eqb c CozoDatabase.dquote); cbn [String.length]; rewrite IH; lia.
Qed.

(** X12. [create_relationship] of the facade makes at most two attempts:
    [client.put] with the row as given, and, when that raised, the
    hand-built script with the double quotes of the three names doubled.
    It raises only when both attempts failed. *)
Theorem create_relationship_makes_two_attempts source target rel_type props (w : World) r w' :
  CozoDatabase.create_relationship source target rel_type props w = (r, w') ->
  let stamp := isoformat (utcnow_at (ticks w)) in
  let stored := CozoDatabase.storage_value <$> CozoDatabase.or_empty props in
  let row := {| r_source_id := source; r_target_id := target; r_rel_type := rel_type;
                r_properties := CObj stored; r_created_at := stamp; r_updated_at := stamp |} in
  (r = Ret tt /\ calls w' = calls w ++ [CPutRelationship row])
  \/ (exists text,
         json_dumps (PDict stored) = Some text
         /\ calls w' = calls w ++
              [CPutRelationship row;
               CRun (QPutRelationship (CozoDatabase.escape_quotes source)
                       (CozoDatabase.escape_quotes target)
                       (CozoDatabase.escape_quotes rel_type) text stamp)]
         /\ (r = Ret tt \/ r = Raise (Failure "Error creating relationship")))
  \/ (json_dumps (PDict stored) = None
      /\ calls w' = calls w ++ [CPutRelationship row]
      /\ r = Raise (Failure "Error creating relationship")).
Proof.
  unfold CozoDatabase.create_relationship, utcnow. unfold bind at 1. rewrite tick_run.
  unfold CozoDatabase._process_metadata_for_storage.
  unfold try_except at 1. unfold put_relationship_row.
  destruct (external StoreError _ _ _) as [[[]|e] w1] eqn:Hput.
  - intros H; inversion H; subst; clear H. left. split; [reflexivity|].
    apply external_ret_inv in Hput as [_ ->]. reflexivity.
  - assert (Hc : calls w1 = calls w ++ [CPutRelationship
                   {| r_source_id := source; r_target_id := target; r_rel_type := rel_type;
                      r_properties := CObj (CozoDatabase.storage_value <$> CozoDatabase.or_empty props);
                      r_created_at := isoformat (utcnow_at (ticks w));
                      r_updated_at := isoformat (utcnow_at (ticks w)) |}]).
    { unfold external in Hput. cbn [faults store] in Hput.
      destruct (faults w) as [|[] fs]; inversion Hput; reflexivity. }
    unfold try_except, bind, CozoDatabase.dumps.
    destruct (json_dumps _) as [text|] eqn:Hd.
    + unfold ret at 1. intros H. right. left. exists text. split; [reflexivity|].
      unfold run_put_relationship in H.
      destruct (external StoreError _ _ w1) as [[[]|e2] w2] eqn:Hrun.
      * inversion H; subst; clear H. split; [|left; reflexivity].
        apply external_ret_inv in Hrun as [_ ->]. cbn [calls logged]. rewrite Hc, <- app_assoc.
        reflexivity.
      * inversion H; subst; clear H. split; [|right; reflexivity].
        unfold external in Hrun.
        destruct (faults w1) as [|[] fs]; inversion Hrun; cbn [calls logged];
          rewrite Hc, <- app_assoc; reflexivity.
    + intros H; inversion H; subst; clear H. right. right. auto.
Qed.

End RelationshipFacts.

(** * The vector path and the graph relations *)

Section GraphFrames.
Context {R : Runtime}.

Lemma keeps_graph_refl w : keeps_graph w w.
Proof. repeat split; auto. Qed.

Lemma keeps_graph_trans a b c : keeps_graph a b -> keeps_graph b c -> keeps_graph a c.
Proof. unfold keeps_graph. intros (?&?&?) (?&?&?). repeat split; [congruence | congruence | auto]. Qed.

Lemma tick_keeps_graph {A} (f : nat -> A) : respects keeps_graph (tick f).
Proof. intros w r w' H. inversion H. repeat split; auto. Qed.

Lemma external_keeps_graph {A} err c (answer : Store -> result A * Store) :
  (forall s, document_rel (snd (answer s)) = document_rel s) ->
  (forall s, relationship_rel (snd (answer s)) = relationship_rel s) ->
  respects keeps_graph (external err c answer).
Proof.
  intros Hd Hr w r w' H. unfold external in H.
  destruct (faults w) as [|[] fs] eqn:E; inversion H; subst; unfold logged; simpl;
    rewrite ?E; (split; [cbn [store]; auto | split; [cbn [store]; auto | intros; simpl; congruence]]).
Qed.

Lemma only_ticks_keeps_graph {A} (c : M A) : respects only_ticks c -> respects keeps_graph c.
Proof.
  intros Hc w r w' H. destruct (Hc w r w' H) as (Hs & Hf & _).
  unfold keeps_graph. rewrite Hs, Hf. auto.
Qed.

End GraphFrames.

#[global] Hint Resolve keeps_graph_refl keeps_graph_trans : frames.

Ltac graph_frame_step :=
  first
    [ frame_step
    | match goal with
      | |- respects keeps_graph (tick _) => apply tick_keeps_graph
      | |- respects keeps_graph (external _ _ _) => apply external_keeps_graph; intros
      | |- respects keeps_graph (for_each _ _) =>
          apply respects_for_each; [eauto with frames | eauto with frames | intros]
      end ].

Ltac graph_frame := repeat graph_frame_step.

Section VectorPathFacts.
Context {R : Runtime}.

Lemma create_vector_schema_keeps_graph force :
  respects keeps_graph (CozoDatabase._create_vector_document_schema force).
Proof.
  unfold CozoDatabase._create_vector_document_schema, CozoDatabase.skip_creation,
    CozoDatabase._relation_exists, run_data_relations, run_create_vector_document,
    run_hnsw_create.
  graph_frame; try reflexivity;
    try (unfold create_vector_relation; destruct (vector_document_rel s); reflexivity);
    try (unfold create_hnsw_index; destruct (vector_document_rel s) as [v|];
         [destruct (vec_indexed v)|]; reflexivity).
Qed.

Lemma get_vector_document_keeps_graph doc_id :
  respects keeps_graph (CozoDatabase.get_vector_document doc_id).
Proof.
  unfold CozoDatabase.get_vector_document, run_relations, run_vector_by_id,
    CozoDatabase.first_column.
  graph_frame; try reflexivity; try apply create_vector_schema_keeps_graph;
    try (unfold select_vector; destruct (vector_document_rel s); reflexivity).
Qed.

Lemma delete_vector_document_keeps_graph doc_id :
  respects keeps_graph (CozoDatabase.delete_vector_document doc_id).
Proof.
  unfold CozoDatabase.delete_vector_document, run_delete_vector.
  graph_frame; unfold delete_vector_row; destruct (vector_document_rel s); reflexivity.
Qed.

Lemma add_vector_document_keeps_graph doc_id content md :
  respects keeps_graph (CozoDatabase.add_vector_document doc_id content md).
Proof.
  unfold CozoDatabase.add_vector_document, utcnow, CozoDatabase._get_text_embedding,
    model_encode, CozoDatabase.dumps, put_vector_row.
  graph_frame; try reflexivity; unfold put_vector; destruct (vector_document_rel s); reflexivity.
Qed.

Lemma update_vector_document_keeps_graph doc_id content md :
  respects keeps_graph (CozoDatabase.update_vector_document doc_id content md).
Proof.
  unfold CozoDatabase.update_vector_document.
  graph_frame;
    [apply delete_vector_document_keeps_graph | apply add_vector_document_keeps_graph].
Qed.

Lemma get_document_keeps_graph self doc_id :
  respects keeps_graph (DocumentService.get_document self doc_id).
Proof.
  unfold DocumentService.get_document, VectorDatabase.get_document.
  graph_frame; [apply get_vector_document_keeps_graph|].
  apply only_ticks_keeps_graph, document_of_only_ticks.
Qed.

End VectorPathFacts.

(** * The service and the graph store *)

Section ServiceGraphFacts.
Context {R : Runtime}.

(** X13. What [DocumentService.create_relationship] returns: [None] only
    after the two lookups, with the graph relations untouched; otherwise
    the relationship as it was asked for, with the empty dictionary for
    properties that were not given, whatever became of the graph write. *)
Theorem create_relationship_outcomes self source target rel_type props (w : World) r w' :
  DocumentService.create_relationship self source target rel_type props w = (Ret r, w') ->
  match r with
  | None => keeps_graph w w'
  | Some rel =>
      rel = {| source_id := source; target_id := target; relationship_type := rel_type;
               properties := match props with Some p => p | None => ∅ end |}
  end.
Proof.
  unfold DocumentService.create_relationship. intros H.
  apply bind_ret_inv in H as (sd & w1 & Hs & H).
  apply bind_ret_inv in H as (td & w2 & Ht & H).
  assert (Hk : keeps_graph w w2).
  { eapply keeps_graph_trans; eapply get_document_keeps_graph; eassumption. }
  destruct sd as [sd|], td as [td|]; try (inversion H; subst; exact Hk).
  apply bind_ret_inv in H as ([] & w3 & _ & H). inversion H; subst. reflexivity.
Qed.

(** X14. A service whose graph store is not available never touches the
    two graph relations: writing operations leave them as they are, and
    the two graph readers return nothing without a single call. *)
Theorem unavailable_graph_is_never_touched self :
  DocumentService.graph_db_available self = false ->
  (forall title content md,
      respects keeps_graph (DocumentService.create_document self title content md))
  /\ (forall doc_id title content md,
         respects keeps_graph (DocumentService.update_document self doc_id title content md))
  /\ (forall doc_id, respects keeps_graph (DocumentService.delete_document self doc_id))
  /\ (forall source target rel_type props,
         respects keeps_graph
           (DocumentService.create_relationship self source target rel_type props))
  /\ (forall doc_id rel_type (w : World),
         DocumentService.get_related_documents self doc_id rel_type w = (Ret [], w))
  /\ (forall depth (w : World),
         DocumentService.get_document_graph self depth w
         = (Ret {| nodes := []; relationships := [] |}, w)).
Proof.
  intros Hoff.
  split; [|split; [|split; [|split; [|split]]]].
  - intros title content md.
    unfold DocumentService.create_document, DocumentService.mirror_node,
      VectorDatabase.add_document, uuid4, now. rewrite Hoff.
    graph_frame; [apply only_ticks_keeps_graph, new_DocumentMetadata_only_ticks
                 | apply add_vector_document_keeps_graph].
  - intros doc_id title content md.
    unfold DocumentService.update_document, DocumentService.mirror_node,
      VectorDatabase.update_document, now. rewrite Hoff.
    graph_frame; [apply get_document_keeps_graph
                 | apply only_ticks_keeps_graph, new_DocumentMetadata_only_ticks
                 | apply update_vector_document_keeps_graph].
  - intros doc_id. unfold DocumentService.delete_document, VectorDatabase.delete_document.
    rewrite Hoff.
    graph_frame; [apply get_document_keeps_graph | apply delete_vector_document_keeps_graph].
  - intros source target rel_type props. unfold DocumentService.create_relationship.
    rewrite Hoff.
    graph_frame; apply get_document_keeps_graph.
  - intros doc_id rel_type w. unfold DocumentService.get_related_documents. rewrite Hoff.
    reflexivity.
  - intros depth w. unfold DocumentService.get_document_graph. rewrite Hoff. reflexivity.
Qed.



End ServiceGraphFacts.

(** * Facts about tags *)

Section StringFacts.










Lemma lstrip_id (s : string) : leading_whitespace s = false -> DocumentService.lstrip s = s.
Proof. destruct s as [|c s]; cbn; [reflexivity | intros ->; reflexivity]. Qed.











End StringFacts.

Section TagFacts.
Context {R : Runtime}.






End TagFacts.

(** * Facts about the markdown helpers *)

Section MarkdownFacts.
Variable finditer : string -> string -> list MarkdownUtils.re_match.
Variable sub : string -> string -> bool -> string -> string.

Lemma existsb_eqb_In (tag : string) tags :
  existsb (String.eqb tag) tags = true <-> In tag tags.
Proof.
  rewrite existsb_exists. split.
  - intros (x & Hx & He). apply String.eqb_eq in He. subst. exact Hx.
  - intros H. exists tag. split; [exact H | apply String.eqb_refl].
Qed.

(** The loop of [extract_tags], started from the tags found so far. *)
Lemma add_tags_run (found : list MarkdownUtils.re_match) : forall tags,
  exists more,
    fold_left MarkdownUtils.add_tag found tags = tags ++ more
    /\ sublist more (List.map (fun m => MarkdownUtils.m_group m 1) found)
    /\ (List.NoDup tags -> List.NoDup (tags ++ more))
    /\ (forall tag, In tag (tags ++ more)
                    <-> In tag tags \/ In tag (List.map (fun m => MarkdownUtils.m_group m 1) found)).
Proof.
  induction found as [|m found IH]; intros tags; cbn [fold_left List.map].
  - exists []. rewrite app_nil_r. split; [reflexivity|]. split; [constructor|].
    split; [auto|]. intros tag. cbn. tauto.
  - unfold MarkdownUtils.add_tag at 2. cbn zeta.
    destruct (existsb (String.eqb (MarkdownUtils.m_group m 1)) tags) eqn:E.
    + apply existsb_eqb_In in E.
      destruct (IH tags) as (more & Hrun & Hsub & Hnd & Hin).
      exists more. split; [exact Hrun|]. split; [apply sublist_cons; exact Hsub|].
      split; [exact Hnd|]. intros tag. rewrite Hin. cbn [In].
      split; [tauto|]. intros [H|[H|H]]; [tauto | subst; tauto | tauto].
    + assert (Hnot : ~ In (MarkdownUtils.m_group m 1) tags).
      { intros H. apply existsb_eqb_In in H. congruence. }
      destruct (IH (tags ++ [MarkdownUtils.m_group m 1])) as (more & Hrun & Hsub & Hnd & Hin).
      exists (MarkdownUtils.m_group m 1 :: more).
      rewrite <- app_assoc in Hrun, Hnd, Hin. cbn [app] in Hrun, Hnd, Hin.
      split; [exact Hrun|]. split; [apply sublist_skip; exact Hsub|].
      split.
      * intros Ht. apply Hnd. apply List.NoDup_app; repeat split.
        -- exact Ht.
        -- constructor; [intros [] | constructor].
        -- intros x Hx [<-|[]]. exact (Hnot Hx).
      * intros tag. rewrite Hin, in_app_iff. cbn [In]. tauto.
Qed.

(** X19. [extract_tags] returns every tag name that the pattern matched
    and nothing else, each once, in the order of the text. *)
Theorem extract_tags_distinct_in_text_order (text : string) :
  let matched := List.map (fun m => MarkdownUtils.m_group m 1)
                   (finditer MarkdownUtils.tag_pattern text) in
  List.NoDup (MarkdownUtils.extract_tags finditer text)
  /\ (forall tag, In tag (MarkdownUtils.extract_tags finditer text) <-> In tag matched)
  /\ sublist (MarkdownUtils.extract_tags finditer text) matched.
Proof.
  cbn zeta. unfold MarkdownUtils.extract_tags.
  destruct (add_tags_run (finditer MarkdownUtils.tag_pattern text) [])
    as (more & Hrun & Hsub & Hnd & Hin).
  rewrite Hrun. cbn [app] in *.
  split; [apply Hnd; constructor|]. split; [|exact Hsub].
  intros tag. rewrite Hin. cbn [In]. tauto.
Qed.








End MarkdownFacts.

(** * Facts about building the service *)

Section ConstructionFacts.
Context {R : Runtime}.

(** X21. Building the service: a failure of the vector database is the
    failure of the constructor; once the vector database is there the
    constructor returns, and the graph store counts as available exactly
    when its own constructor and the probe both went through. *)
Theorem service_init_survives_graph_failure
    (vector_exists vector_opens graph_exists graph_opens : bool) (w : World) :
  (forall e w1,
      Construction.VectorDatabase__init__ vector_exists vector_opens w = (Raise e, w1) ->
      Construction.DocumentService__init__ vector_exists vector_opens graph_exists graph_opens w
      = (Raise e, w1))
  /\ (forall w1,
         Construction.VectorDatabase__init__ vector_exists vector_opens w = (Ret tt, w1) ->
         exists service w',
           Construction.DocumentService__init__ vector_exists vector_opens
             graph_exists graph_opens w = (Ret service, w')
           /\ (DocumentService.graph_db_available service = true
               <-> exists w2 w3,
                   Construction.CozoDatabase__init__ graph_exists graph_opens w1 = (Ret tt, w2)
                   /\ run_probe w2 = (Ret tt, w3))).
Proof.
  split.
  - intros e w1 Hv. unfold Construction.DocumentService__init__, bind. rewrite Hv. reflexivity.
  - intros w1 Hv. unfold Construction.DocumentService__init__. unfold bind at 1. rewrite Hv.
    unfold try_except, bind.
    destruct (Construction.CozoDatabase__init__ graph_exists graph_opens w1)
      as [[[]|e] w2] eqn:Hg.
    + destruct (run_probe w2) as [[[]|e] w3] eqn:Hp.
      * eexists _, _. split; [reflexivity|]. cbn. split; [eauto | reflexivity].
      * eexists _, _. split; [reflexivity|]. cbn. split; [discriminate|].
        intros (wa & wb & Ha & Hb). inversion Ha; subst. congruence.
    + eexists _, _. split; [reflexivity|]. cbn. split; [discriminate|].
      intros (wa & wb & Ha & Hb). discriminate.
Qed.


End ConstructionFacts.

(** * Facts about the graph reader *)

Section RelatedFacts.
Context {R : Runtime}.




End RelatedFacts.

(** * The further properties on the sample runtime *)

Lemma from_dict_without_metadata_witness :
  DocumentDict.from_dict (R := Sample.runtime) Cases.bare_document Sample.start
  = (Ret (Build_Document (R := Sample.runtime) "1" "T" "c"
            (Build_DocumentMetadata (R := Sample.runtime) "" [] 0%nat 1%nat None)),
     Build_World (R := Sample.runtime) Sample.fresh_store [] [] 2).
Proof.
  exact (from_dict_without_metadata (R := Sample.runtime) Cases.bare_document Sample.start
           "1" "T" "c" eq_refl eq_refl eq_refl eq_refl).
Defined.


Lemma store_failures_do_not_reach_readers_witness :
  exists w',
    DocumentService.get_document (R := Sample.runtime) Sample.service "x"
      (Sample.world_with Sample.broken_store []) = (Raise (KeyError "title"), w')
    /\ malformed_record (KeyError "title").
Proof.
  eexists. 
  assert (H : DocumentService.get_document (R := Sample.runtime) Sample.service "x"
                (Sample.world_with Sample.broken_store [])
              = (Raise (KeyError "title"),
                 snd (DocumentService.get_document (R := Sample.runtime) Sample.service "x"
                        (Sample.world_with Sample.broken_store []))))
    by (vm_compute; reflexivity).
  split; [exact H|].
  exact (proj1 (store_failures_do_not_reach_readers (R := Sample.runtime) Sample.service
                  _ _ _) "x" H).
Defined.


Lemma create_relationship_makes_two_attempts_witness :
  exists row text stamp w',
    CozoDatabase.create_relationship (R := Sample.runtime) "a" Sample.quoted_title "links" None
      (Sample.world_with Sample.fresh_store [true]) = (Ret tt, w')
    /\ calls w'
       = [CPutRelationship row;
          CRun (QPutRelationship "a" (CozoDatabase.escape_quotes Sample.quoted_title) "links"
                  text stamp)].
Proof.
  pose (run := CozoDatabase.create_relationship (R := Sample.runtime) "a" Sample.quoted_title
                 "links" None (Sample.world_with Sample.fresh_store [true])).
  assert (Hr : fst run = Ret tt) by (vm_compute; reflexivity).
  destruct (create_relationship_makes_two_attempts (R := Sample.runtime) "a"
              Sample.quoted_title "links" None (Sample.world_with Sample.fresh_store [true])
              (fst run) (snd run) (surjective_pairing run))
    as [[_ Hc] | [(text & _ & Hc & _) | (Hd & _)]].
  - vm_compute in Hc. discriminate Hc.
  - eexists _, text, _, (snd run). split; [rewrite <- Hr; apply surjective_pairing | exact Hc].
  - vm_compute in Hd. discriminate Hd.
Defined.

Lemma create_relationship_outcomes_witness :
  exists w',
    DocumentService.create_relationship (R := Sample.runtime) Sample.service "d" "d" "self" None
      Sample.after_create
    = (Ret (Some (Build_DocumentRelationship (R := Sample.runtime) "d" "d" "self" ∅)), w').
Proof.
  assert (H : exists rel w',
             DocumentService.create_relationship (R := Sample.runtime) Sample.service
               "d" "d" "self" None Sample.after_create = (Ret (Some rel), w'))
    by (vm_compute; eexists _, _; reflexivity).
  destruct H as (rel & w' & H). exists w'. rewrite H.
  rewrite (create_relationship_outcomes (R := Sample.runtime) _ _ _ _ _ _ _ _ H). reflexivity.
Defined.

Lemma unavailable_graph_is_never_touched_witness :
  keeps_graph Sample.after_create
    (snd (DocumentService.delete_document (R := Sample.runtime) Cases.without_graph "d"
            Sample.after_create))
  /\ DocumentService.get_related_documents (R := Sample.runtime) Cases.without_graph "d" None
       Sample.after_create = (Ret [], Sample.after_create).
Proof.
  destruct (unavailable_graph_is_never_touched (R := Sample.runtime) Cases.without_graph eq_refl)
    as (_ & _ & Hdel & _ & Hrel & _).
  split; [|apply Hrel].
  eapply Hdel. apply surjective_pairing.
Defined.




Lemma service_init_survives_graph_failure_witness :
  exists service w',
    Construction.DocumentService__init__ (R := Sample.runtime) false true true false
      (Sample.world_with Sample.blank_store []) = (Ret service, w')
    /\ DocumentService.graph_db_available service <> true.
Proof.
  pose (w1 := snd (Construction.VectorDatabase__init__ (R := Sample.runtime) false true
                     (Sample.world_with Sample.blank_store []))).
  assert (H : Construction.VectorDatabase__init__ (R := Sample.runtime) false true
                (Sample.world_with Sample.blank_store []) = (Ret tt, w1))
    by (vm_compute; reflexivity).
  destruct (proj2 (service_init_survives_graph_failure (R := Sample.runtime)
                     false true true false (Sample.world_with Sample.blank_store [])) w1 H)
    as (service & w' & Hrun & Hiff).
  exists service, w'. split; [exact Hrun|].
  intros Hon. apply Hiff in Hon as (w2 & w3 & Hinit & _). discriminate Hinit.
Defined.


